(** * PitPulse / ScoutAI: rating extraction, caching and feature construction

    A shallow embedding of the feature-engineering core of
    [scripts/data_pipeline.py] (the offline dataset builder),
    [scripts/predict_server.py] (the online prediction server) and the
    column list of [scripts/train_model.py].

    Conventions of the embedding.
    - A parsed JSON document is a [pyval]; a Python [dict] is an association
      list read with first-match lookup.
    - Python numbers are rationals ([Q]).  The [int]/[float]/[bool]
      distinction is kept on [pyval], where the code tests it with
      [isinstance].  The conversion [float(v)] of an integer beyond the range
      of a double raises [OverflowError], as in Python; rounding error, NaN
      and infinities of binary floating point are outside the model, and so
      is the overflow of an aggregate ([np.mean], [sum]).
    - A Python [str] is a [string]: a sequence of code points below 256.
    - A Python call either returns or raises: [outcome].  Functions that touch
      the network or a cache thread a [world] explicitly. *)

From Stdlib Require Import ZArith QArith Qround Ascii String List Lia.
From stdpp Require Import base option list strings gmap pretty.
Import ListNotations.

Local Open Scope string_scope.

(** ** Python values *)

Module Py.

#[warnings="-register-all"]
Inductive pyval : Type :=
| PNone
| PBool (b : bool)
| PInt (z : Z)
| PFloat (q : Q)
| PStr (s : string)
| PList (l : list pyval)
| PDict (d : list (string * pyval)).

Definition pydict : Type := list (string * pyval).

(** A Python [dict] with string keys, in insertion order. *)
Definition odict (V : Type) : Type := list (string * V).

(** Exceptions that the modelled code can let escape. *)
Inductive exn : Type := TypeError | AttributeError | KeyError | OverflowError.

Inductive outcome (A : Type) : Type :=
| Raised (e : exn)
| Returned (a : A).
Arguments Raised {A} e.
Arguments Returned {A} a.

Definition obind {A B} (o : outcome A) (k : A -> outcome B) : outcome B :=
  match o with
  | Raised e => Raised e
  | Returned a => k a
  end.

Notation "x <- c ;; k" := (obind c (fun x => k))
  (at level 100, c at next level, right associativity).

(** [d[k]] for a key that may be missing: [None] when it is. *)
Fixpoint dict_get {V : Type} (d : odict V) (k : string) : option V :=
  match d with
  | [] => None
  | (k', v) :: d' => if String.eqb k' k then Some v else dict_get d' k
  end.

(** [d[k] = v]: an existing key keeps its position, a new key goes last. *)
Fixpoint dict_set {V : Type} (d : odict V) (k : string) (v : V) : odict V :=
  match d with
  | [] => [(k, v)]
  | (k', v') :: d' =>
      if String.eqb k' k then (k', v) :: d' else (k', v') :: dict_set d' k v
  end.

(** [{**d, **more}] and [{**d, "k1": v1, ...}]: the entries of [more] are
    stored into [d] from left to right. *)
Definition dict_update {V : Type} (d more : odict V) : odict V :=
  fold_left (fun acc kv => dict_set acc (fst kv) (snd kv)) more d.

(** [list(d)]: the keys in insertion order. *)
Definition dict_keys {V : Type} (d : odict V) : list string := map fst d.

(** [[d[k] for k in keys]]: a [KeyError] at the first key that is missing. *)
Fixpoint dict_pick {V : Type} (d : odict V) (keys : list string) : outcome (list V) :=
  match keys with
  | [] => Returned []
  | k :: rest =>
      match dict_get d k with
      | None => Raised KeyError
      | Some v => vs <- dict_pick d rest ;; Returned (v :: vs)
      end
  end.

(** [[e for e in epas if e is not None]] *)
Definition valid_of {A : Type} (epas : list (option A)) : list A := omap id epas.

(** [d.get(k)]: Python's [None] for a missing key. *)
Definition py_get (d : pydict) (k : string) : pyval :=
  match dict_get d k with
  | Some v => v
  | None => PNone
  end.

(** [d.get(k, dflt)]. *)
Definition py_get_default (d : pydict) (k : string) (dflt : pyval) : pyval :=
  match dict_get d k with
  | Some v => v
  | None => dflt
  end.

(** [bool(v)]. *)
Definition truthy (v : pyval) : bool :=
  match v with
  | PNone => false
  | PBool b => b
  | PInt z => negb (Z.eqb z 0)
  | PFloat q => negb (Qeq_bool q 0)
  | PStr s => negb (String.eqb s "")
  | PList l => match l with [] => false | _ => true end
  | PDict d => match d with [] => false | _ => true end
  end.

(** [a or b]. *)
Definition py_or (a b : pyval) : pyval := if truthy a then a else b.

(** [isinstance(v, (int, float))]; [bool] is a subclass of [int]. *)
Definition is_number (v : pyval) : bool :=
  match v with
  | PBool _ | PInt _ | PFloat _ => true
  | _ => false
  end.

(** The number that a value for which [is_number] holds stands for, as
    Python compares and adds it. *)
Definition number_of (v : pyval) : Q :=
  match v with
  | PBool b => if b then 1%Q else 0%Q
  | PInt z => inject_Z z
  | PFloat q => q
  | _ => 0%Q
  end.

(** The first integer that [float] does not convert.  The largest double is
    [2^1024 - 2^971]; the conversion rounds to the nearest double, a tie to
    the even one, so that [2^1024 - 2^970] is the first integer to round up
    to [2^1024]. *)
Definition FLOAT_OVERFLOW : Z := 2 ^ 1024 - 2 ^ 970.

Definition fits_float (z : Z) : bool := (Z.abs z <? FLOAT_OVERFLOW)%Z.

(** [float(v)] on a value for which [is_number] holds (the code calls it on
    nothing else): an [OverflowError] on an [int] beyond the range of a
    double; a [float] is returned as it is. *)
Definition float (v : pyval) : outcome Q :=
  match v with
  | PInt z => if fits_float z then Returned (inject_Z z) else Raised OverflowError
  | _ => Returned (number_of v)
  end.

Definition is_dict (v : pyval) : bool :=
  match v with PDict _ => true | _ => false end.

(** [needle in s] for two strings. *)
Definition str_contains (needle s : string) : bool :=
  match String.index 0 needle s with
  | Some _ => true
  | None => false
  end.

Definition is_str (s : string) (v : pyval) : bool :=
  match v with PStr s' => String.eqb s' s | _ => false end.

(** ["k" in data]: key membership on a dict, element membership on a list,
    substring test on a string, [TypeError] on anything else. *)
Definition py_in (k : string) (data : pyval) : outcome bool :=
  match data with
  | PDict d => Returned (match dict_get d k with Some _ => true | None => false end)
  | PList l => Returned (existsb (is_str k) l)
  | PStr s => Returned (str_contains k s)
  | _ => Raised TypeError
  end.

(** [data["k"]] once ["k" in data] has answered [True]: only a dict can be
    indexed by a string. *)
Definition py_index (data : pyval) (k : string) : outcome pyval :=
  match data with
  | PDict d => Returned (py_get d k)
  | _ => Raised TypeError
  end.

(** [v.get(k, dflt)]: only a dict has [get]. *)
Definition py_attr_get (v : pyval) (k : string) (dflt : pyval) : outcome pyval :=
  match v with
  | PDict d => Returned (py_get_default d k dflt)
  | _ => Raised AttributeError
  end.

End Py.
Import Py.

(** ** HTTP *)

Module Http.

(** What [requests.get] gives back: a [RequestException] (connection error,
    timeout), or a response with a status code whose body parses as JSON
    ([Some]) or does not ([None]; [resp.json()] then raises
    [requests.JSONDecodeError], itself a [RequestException]). *)
Inductive response : Type :=
| RequestException
| Response (status_code : Z) (json : option pyval).

Definition STATBOTICS_BASE : string := "https://api.statbotics.io/v3".

(** [f"/team_event/{team_num}/{event_key}"].  The team numbers of a run come
    out of [int] or of a JSON body, so that Python can write their decimal
    text. *)
Definition team_event_endpoint (team_num : Z) (event_key : string) : string :=
  "/team_event/" +:+ pretty team_num +:+ "/" +:+ event_key.

(** [f"{team_num}-{event_key}"] *)
Definition cache_key (team_num : Z) (event_key : string) : string :=
  pretty team_num +:+ "-" +:+ event_key.

End Http.
Import Http.

(** ** Arithmetic on lists of numbers *)

Module Num.

Local Open Scope Q_scope.

(** [sum(xs)]: left to right, starting from [0]. *)
Definition py_sum (xs : list Q) : Q := fold_left Qplus xs 0.

(** [np.mean(xs)] for a non-empty [xs]: the exact mean, without the rounding
    of floating point (a float mean can exceed the largest item by an ulp). *)
Definition np_mean (xs : list Q) : Q := py_sum xs / inject_Z (Z.of_nat (length xs)).

(** [max(xs)] for a non-empty [xs]: the first largest item. *)
Definition py_max (xs : list Q) : Q :=
  match xs with
  | [] => 0
  | x :: rest => fold_left (fun best y => if Qlt_le_dec best y then y else best) rest x
  end.

(** [round(x)]: to the nearest integer, a tie to the even one. *)
Definition py_round (x : Q) : Z :=
  let f := Qfloor x in
  match Qcompare (x - inject_Z f) (1 # 2) with
  | Lt => f
  | Gt => (f + 1)%Z
  | Eq => if Z.even f then f else (f + 1)%Z
  end.

(** [round(x, 3)]. *)
Definition py_round3 (x : Q) : Q := inject_Z (py_round (x * 1000)) / 1000.

End Num.
Import Num.

(** ** The rating record *)

Record TeamRating : Type := mkRating {
  total : Q;
  auto : Q;
  teleop : Q;
  endgame : Q
}.

(** ** scripts/data_pipeline.py *)

Module Pipeline.

(** [statbotics_get]: the parsed body of a 200 response, Python's [None] for
    any other status and for a failed request. *)
Definition statbotics_get (r : response) : pyval :=
  match r with
  | Response 200 (Some body) => body
  | _ => PNone
  end.

(** The local helper [safe_mean] of [get_team_epa]. *)
Definition safe_mean (value : pyval) : outcome Q :=
  match value with
  | PDict d =>
      let v := py_get d "mean" in
      if is_number v then float v else Returned 0%Q
  | _ => if is_number value then float value else Returned 0%Q
  end.

(** The value bound to [result] from [epa = data["epa"]]; the four items of
    a dict literal are computed from top to bottom. *)
Definition epa_result (epa : pyval) : outcome (option TeamRating) :=
  match epa with
  | PDict e =>
      match py_get e "breakdown" with
      | PDict breakdown =>
          t <- safe_mean (py_get breakdown "total_points") ;;
          a <- safe_mean (py_get breakdown "auto_points") ;;
          o <- safe_mean (py_get breakdown "teleop_points") ;;
          g <- safe_mean (py_get breakdown "endgame_points") ;;
          Returned (Some {| total := t; auto := a; teleop := o; endgame := g |})
      | _ =>
          t <- safe_mean
                 (py_or (py_or (py_or (py_get e "total_points") (py_get e "total"))
                               (py_get e "mean"))
                        (py_get e "epa")) ;;
          a <- safe_mean (py_or (py_get e "auto_points") (py_get e "auto")) ;;
          o <- safe_mean (py_or (py_get e "teleop_points") (py_get e "teleop")) ;;
          g <- safe_mean (py_or (py_get e "endgame_points") (py_get e "endgame")) ;;
          Returned (Some {| total := t; auto := a; teleop := o; endgame := g |})
      end
  | _ =>
      if is_number epa
      then t <- float epa ;;
           Returned (Some {| total := t; auto := 0; teleop := 0; endgame := 0 |})
      else Returned None
  end.

(** Everything [get_team_epa] does with [data] after the request:
    [if data and "epa" in data: ... return result] and otherwise [None]. *)
Definition rating_of_payload (data : pyval) : outcome (option TeamRating) :=
  if truthy data then
    present <- py_in "epa" data ;;
    if present then epa <- py_index data "epa" ;; epa_result epa
    else Returned None
  else Returned None.

(** The state of a batch run: the memo dict [epa_cache] owned by [main] and
    the log of outbound rating requests, oldest first. *)
Record world : Type := mkWorld {
  epa_cache : gmap string (option TeamRating);
  calls : list string
}.

Section Client.

(** The rating service: the answer to the [n]-th outbound request of the run,
    for the URL asked. *)
Variable net : nat -> string -> response.

(** [get_team_epa(team_num, event_key, epa_cache)].  A hit returns the stored
    value.  A miss sleeps [THROTTLE_MS], makes one request and stores what it
    computed; when the computation raises, nothing is stored. *)
Definition get_team_epa (team_num : Z) (event_key : string) (w : world)
  : outcome (option TeamRating) * world :=
  let key := cache_key team_num event_key in
  match epa_cache w !! key with
  | Some cached => (Returned cached, w)
  | None =>
      let url := STATBOTICS_BASE +:+ team_event_endpoint team_num event_key in
      let data := statbotics_get (net (length (calls w)) url) in
      let w1 := {| epa_cache := epa_cache w; calls := calls w ++ [url] |} in
      match rating_of_payload data with
      | Returned result =>
          (Returned result, {| epa_cache := <[key := result]> (epa_cache w1); calls := calls w1 |})
      | Raised e => (Raised e, w1)
      end
  end.

End Client.

(** [key.replace("frc", "")] *)
Fixpoint remove_frc (s : string) : string :=
  match s with
  | String "f"%char (String "r"%char (String "c"%char rest)) => remove_frc rest
  | String c rest => String c (remove_frc rest)
  | EmptyString => EmptyString
  end.

(** White space for [str.strip] and [str.isspace], among the code points
    below 256: space, tab to carriage return, the four separators 28 to 31,
    next line (133) and the no-break space (160). *)
Definition is_space (c : ascii) : bool :=
  let n := nat_of_ascii c in
  (Nat.eqb n 32 || (Nat.leb 9 n && Nat.leb n 13) || (Nat.leb 28 n && Nat.leb n 31)
   || Nat.eqb n 133 || Nat.eqb n 160)%bool.

(** White space that [int] skips around the digits: the same without the
    separators 28 to 31, which make [int] raise [ValueError]. *)
Definition int_space (c : ascii) : bool :=
  let n := nat_of_ascii c in
  (Nat.eqb n 32 || (Nat.leb 9 n && Nat.leb n 13) || Nat.eqb n 133 || Nat.eqb n 160)%bool.

Section Strip.

Variable space : ascii -> bool.

Fixpoint lstrip (s : list ascii) : list ascii :=
  match s with
  | c :: rest => if space c then lstrip rest else s
  | [] => []
  end.

Definition strip (s : list ascii) : list ascii := rev (lstrip (rev (lstrip s))).

End Strip.

Definition digit_of (c : ascii) : option Z :=
  let n := nat_of_ascii c in
  if (Nat.leb 48 n && Nat.leb n 57)%bool then Some (Z.of_nat (n - 48)) else None.

(** Decimal digits, single underscores allowed between two digits.
    [after_digit] tells whether the previous character was a digit. *)
Fixpoint parse_digits (s : list ascii) (acc : Z) (after_digit : bool) : option Z :=
  match s with
  | [] => if after_digit then Some acc else None
  | c :: rest =>
      match digit_of c with
      | Some d => parse_digits rest (10 * acc + d) true
      | None =>
          if (Ascii.eqb c "_"%char && after_digit)%bool
          then match rest with
               | [] => None
               | _ => parse_digits rest acc false
               end
          else None
      end
  end.

(** The number of decimal digits in a text. *)
Fixpoint count_digits (s : list ascii) : nat :=
  match s with
  | [] => O
  | c :: rest =>
      match digit_of c with
      | Some _ => S (count_digits rest)
      | None => count_digits rest
      end
  end.

(** The default of [sys.set_int_max_str_digits]: [int] refuses a text with
    more decimal digits. *)
Definition INT_MAX_STR_DIGITS : nat := 4300.

(** [int(s)]: surrounding white space, an optional sign, decimal digits (the
    only decimal digits below code point 256 are [0] to [9]), no more than
    [INT_MAX_STR_DIGITS] of them.  [None] stands for the [ValueError]. *)
Definition py_int (s : string) : option Z :=
  let body := strip int_space (list_ascii_of_string s) in
  if Nat.ltb INT_MAX_STR_DIGITS (count_digits body) then None
  else match body with
       | "-"%char :: ds => option_map Z.opp (parse_digits ds 0 false)
       | "+"%char :: ds => parse_digits ds 0 false
       | ds => parse_digits ds 0 false
       end.

(** One alliance of a match record of the match service. *)
Record alliance : Type := mkAlliance {
  team_keys : list string;
  score : Z
}.

(** A match record; [comp_level] is [None] when the key is missing. *)
Record tba_match : Type := mkMatch {
  red : alliance;
  blue : alliance;
  comp_level : option string
}.

(** An event record; [week] is [None] when the key is missing or null. *)
Record tba_event : Type := mkEvent {
  key : string;
  week : option Z
}.

(** [extract_team_numbers]: keys that do not parse are skipped. *)
Definition extract_team_numbers (alliance_data : alliance) : list Z :=
  omap (fun k => py_int (remove_frc k)) (team_keys alliance_data).

(** The local function [alliance_features] of [build_feature_vector]. *)
Definition alliance_features (epas : list (option TeamRating)) (prefix : string)
  : odict Q :=
  let valid := valid_of epas in
  match valid with
  | [] =>
      [(prefix +:+ "_avg_epa", 0%Q); (prefix +:+ "_avg_auto", 0%Q);
       (prefix +:+ "_avg_teleop", 0%Q); (prefix +:+ "_avg_endgame", 0%Q);
       (prefix +:+ "_sum_epa", 0%Q); (prefix +:+ "_max_epa", 0%Q)]
  | _ =>
      [(prefix +:+ "_avg_epa", np_mean (map total valid));
       (prefix +:+ "_avg_auto", np_mean (map auto valid));
       (prefix +:+ "_avg_teleop", np_mean (map teleop valid));
       (prefix +:+ "_avg_endgame", np_mean (map endgame valid));
       (prefix +:+ "_sum_epa", py_sum (map total valid));
       (prefix +:+ "_max_epa", py_max (map total valid))]
  end.

(** [{"qm": 0, "ef": 1, "qf": 1, "sf": 2, "f": 3}.get(comp_level, 0)] *)
Definition comp_encoded (level : string) : Z :=
  if String.eqb level "qm" then 0
  else if String.eqb level "ef" then 1
  else if String.eqb level "qf" then 1
  else if String.eqb level "sf" then 2
  else if String.eqb level "f" then 3
  else 0.

(** [d[k]] for a key the code has just stored. *)
Definition feat (d : odict Q) (k : string) : Q :=
  match dict_get d k with Some v => v | None => 0%Q end.

(** [build_feature_vector] from the point where the six ratings are known. *)
Definition feature_row (m : tba_match) (event : tba_event)
    (red_epas blue_epas : list (option TeamRating)) : option (odict Q) :=
  let red_score := score (red m) in
  let blue_score := score (blue m) in
  let red_valid := valid_of red_epas in
  let blue_valid := valid_of blue_epas in
  if (length red_valid <? 2)%nat || (length blue_valid <? 2)%nat then None
  else
    let red_feats := alliance_features red_epas "red" in
    let blue_feats := alliance_features blue_epas "blue" in
    let level := match comp_level m with Some l => l | None => "qm" end in
    let event_week := match week event with Some wk => wk | None => 0%Z end in
    let epa_diff := (feat red_feats "red_sum_epa" - feat blue_feats "blue_sum_epa")%Q in
    let avg_epa_diff := (feat red_feats "red_avg_epa" - feat blue_feats "blue_avg_epa")%Q in
    let label (winner : Z) :=
      Some (dict_update (dict_update red_feats blue_feats)
              [("comp_level", inject_Z (comp_encoded level));
               ("event_week", inject_Z event_week);
               ("epa_diff", epa_diff);
               ("avg_epa_diff", avg_epa_diff);
               ("winner", inject_Z winner);
               ("red_score", inject_Z red_score);
               ("blue_score", inject_Z blue_score);
               ("score_margin", inject_Z (red_score - blue_score))]) in
    if (blue_score <? red_score)%Z then label 1%Z
    else if (red_score <? blue_score)%Z then label 0%Z
    else None.

Section Builder.

Variable net : nat -> string -> response.

(** [[get_team_epa(t, event_key, epa_cache) for t in teams]]: the first
    exception ends the comprehension. *)
Fixpoint fetch_all (teams : list Z) (event_key : string) (w : world)
  : outcome (list (option TeamRating)) * world :=
  match teams with
  | [] => (Returned [], w)
  | t :: rest =>
      match get_team_epa net t event_key w with
      | (Raised e, w1) => (Raised e, w1)
      | (Returned r, w1) =>
          match fetch_all rest event_key w1 with
          | (Raised e, w2) => (Raised e, w2)
          | (Returned rs, w2) => (Returned (r :: rs), w2)
          end
      end
  end.

(** [build_feature_vector(match, event, epa_cache)] *)
Definition build_feature_vector (m : tba_match) (event : tba_event) (w : world)
  : outcome (option (odict Q)) * world :=
  let red_teams := extract_team_numbers (red m) in
  let blue_teams := extract_team_numbers (blue m) in
  if (length red_teams <? 3)%nat || (length blue_teams <? 3)%nat then (Returned None, w)
  else
    match fetch_all (take 3 red_teams) (key event) w with
    | (Raised e, w1) => (Raised e, w1)
    | (Returned red_epas, w1) =>
        match fetch_all (take 3 blue_teams) (key event) w1 with
        | (Raised e, w2) => (Raised e, w2)
        | (Returned blue_epas, w2) => (Returned (feature_row m event red_epas blue_epas), w2)
        end
    end.

End Builder.

End Pipeline.

(** ** scripts/train_model.py *)

Module Train.

Definition FEATURE_COLS : list string :=
  [ "red_avg_epa"; "red_avg_auto"; "red_avg_teleop"; "red_avg_endgame";
    "red_sum_epa"; "red_max_epa";
    "blue_avg_epa"; "blue_avg_auto"; "blue_avg_teleop"; "blue_avg_endgame";
    "blue_sum_epa"; "blue_max_epa";
    "comp_level"; "event_week"; "epa_diff"; "avg_epa_diff" ].

(** [df[FEATURE_COLS].values] for one row of the dataset: the columns are
    picked by name; a missing column is a [KeyError]. *)
Definition select_columns (cols : list string) (row : odict Q) : outcome (list Q) :=
  dict_pick row cols.

End Train.

(** ** scripts/predict_server.py *)

Module Server.

Definition EPA_CACHE_TTL : Q := 600.

(** The state of the server process: the module-level [_epa_cache], the log
    of outbound rating requests (oldest first) and the number of times
    [time.time()] has been read. *)
Record world : Type := mkWorld {
  _epa_cache : gmap string (option pydict * Q);
  calls : list string;
  ticks : nat
}.

(** [v.get(category, {}).get("mean", 0)] *)
Definition category_mean (breakdown : pyval) (category : string) : outcome pyval :=
  c <- py_attr_get breakdown category (PDict []) ;;
  py_attr_get c "mean" (PInt 0).

(** The body of [if resp.status_code == 200:] up to [result], from
    [data = resp.json()]. *)
Definition result_of_body (data : pyval) : outcome pydict :=
  epa <- py_attr_get data "epa" (PDict []) ;;
  breakdown <- py_attr_get epa "breakdown" (PDict []) ;;
  t <- category_mean breakdown "total_points" ;;
  a <- category_mean breakdown "auto_points" ;;
  tl <- category_mean breakdown "teleop_points" ;;
  eg <- category_mean breakdown "endgame_points" ;;
  Returned [("total", t); ("auto", a); ("teleop", tl); ("endgame", eg)].

(** The [try] block: [Some result] when the block returns [result], [None]
    when control reaches the code after the [try] (status other than 200, or
    a [RequestException], which is all that the [except] clause catches). *)
Definition try_fetch (r : response) : outcome (option pydict) :=
  match r with
  | Response 200 (Some data) => result <- result_of_body data ;; Returned (Some result)
  | _ => Returned None
  end.

Section Service.

Variable net : nat -> string -> response.

(** [clock n] is what the [n]-th read of [time.time()] returns. *)
Variable clock : nat -> Q.

(** [get_team_epa_cached(team_num, event_key)] *)
Definition get_team_epa_cached (team_num : Z) (event_key : string) (w : world)
  : outcome (option pydict) * world :=
  let key := cache_key team_num event_key in
  let now := clock (ticks w) in
  let w0 := {| _epa_cache := _epa_cache w; calls := calls w; ticks := S (ticks w) |} in
  let fetch :=
    let url := STATBOTICS_BASE +:+ team_event_endpoint team_num event_key in
    let w1 := {| _epa_cache := _epa_cache w0; calls := calls w0 ++ [url];
                 ticks := ticks w0 |} in
    match try_fetch (net (length (calls w0)) url) with
    | Returned result =>
        (Returned result,
         {| _epa_cache := <[key := (result, now)]> (_epa_cache w1);
            calls := calls w1; ticks := ticks w1 |})
    | Raised e => (Raised e, w1)
    end in
  match _epa_cache w !! key with
  | Some (data, ts) =>
      if Qlt_le_dec (now - ts) EPA_CACHE_TTL then (Returned data, w0) else fetch
  | None => fetch
  end.

(** [[get_team_epa_cached(t, event_key) for t in teams]] *)
Fixpoint fetch_all (teams : list Z) (event_key : string) (w : world)
  : outcome (list (option pydict)) * world :=
  match teams with
  | [] => (Returned [], w)
  | t :: rest =>
      match get_team_epa_cached t event_key w with
      | (Raised e, w1) => (Raised e, w1)
      | (Returned r, w1) =>
          match fetch_all rest event_key w1 with
          | (Raised e, w2) => (Raised e, w2)
          | (Returned rs, w2) => (Returned (r :: rs), w2)
          end
      end
  end.

End Service.

(** [e[key]] as an operand of [np.mean], [sum] or [max]: a number.  A missing
    key is a [KeyError]; anything that is not a number is taken to end in a
    [TypeError] (numpy's coercion of nested lists is not modelled). *)
Definition number_at (e : pydict) (key : string) : outcome Q :=
  match dict_get e key with
  | None => Raised KeyError
  | Some v => if is_number v then Returned (number_of v) else Raised TypeError
  end.

(** [[e[key] for e in epas]] *)
Fixpoint column (epas : list pydict) (key : string) : outcome (list Q) :=
  match epas with
  | [] => Returned []
  | e :: rest => x <- number_at e key ;; xs <- column rest key ;; Returned (x :: xs)
  end.

(** The three local helpers of [build_features]. *)
Definition avg_or_zero (epas : list pydict) (key : string) : outcome Q :=
  match epas with
  | [] => Returned 0%Q
  | _ => xs <- column epas key ;; Returned (np_mean xs)
  end.

Definition sum_or_zero (epas : list pydict) (key : string) : outcome Q :=
  match epas with
  | [] => Returned 0%Q
  | _ => xs <- column epas key ;; Returned (py_sum xs)
  end.

Definition max_or_zero (epas : list pydict) (key : string) : outcome Q :=
  match epas with
  | [] => Returned 0%Q
  | _ => xs <- column epas key ;; Returned (py_max xs)
  end.

(** The dict literal [features], its values computed from top to bottom. *)
Definition features_of (red_valid blue_valid : list pydict) (comp_level event_week : Z)
  : outcome (odict Q) :=
  f1 <- avg_or_zero red_valid "total" ;;
  f2 <- avg_or_zero red_valid "auto" ;;
  f3 <- avg_or_zero red_valid "teleop" ;;
  f4 <- avg_or_zero red_valid "endgame" ;;
  f5 <- sum_or_zero red_valid "total" ;;
  f6 <- max_or_zero red_valid "total" ;;
  f7 <- avg_or_zero blue_valid "total" ;;
  f8 <- avg_or_zero blue_valid "auto" ;;
  f9 <- avg_or_zero blue_valid "teleop" ;;
  f10 <- avg_or_zero blue_valid "endgame" ;;
  f11 <- sum_or_zero blue_valid "total" ;;
  f12 <- max_or_zero blue_valid "total" ;;
  rs <- sum_or_zero red_valid "total" ;;
  bs <- sum_or_zero blue_valid "total" ;;
  ra <- avg_or_zero red_valid "total" ;;
  ba <- avg_or_zero blue_valid "total" ;;
  Returned (dict_update []
    [("red_avg_epa", f1); ("red_avg_auto", f2); ("red_avg_teleop", f3);
     ("red_avg_endgame", f4); ("red_sum_epa", f5); ("red_max_epa", f6);
     ("blue_avg_epa", f7); ("blue_avg_auto", f8); ("blue_avg_teleop", f9);
     ("blue_avg_endgame", f10); ("blue_sum_epa", f11); ("blue_max_epa", f12);
     ("comp_level", inject_Z comp_level); ("event_week", inject_Z event_week);
     ("epa_diff", (rs - bs)%Q); ("avg_epa_diff", (ra - ba)%Q)]).

(** [build_features] from the point where the six lookups have returned;
    [feature_cols] is the column list loaded from the model directory. *)
Definition feature_vector (feature_cols : list string)
    (red_epas blue_epas : list (option pydict)) (comp_level event_week : Z)
  : outcome (option (list Q)) :=
  let red_valid := valid_of red_epas in
  let blue_valid := valid_of blue_epas in
  match red_valid, blue_valid with
  | [], _ | _, [] => Returned None
  | _, _ =>
      features <- features_of red_valid blue_valid comp_level event_week ;;
      X <- dict_pick features feature_cols ;;
      Returned (Some X)
  end.

Record PredictRequest : Type := mkRequest {
  red_teams : list Z;
  blue_teams : list Z;
  event_key : string;
  comp_level : Z;
  event_week : Z
}.

Record PredictResponse : Type := mkResponse {
  winner : string;
  win_probability : Q;
  red_score : Z;
  blue_score : Z;
  margin : Z
}.

(** How a call of the [/predict] handler ends: an [HTTPException] with its
    status, the response model, or an exception nothing handles. *)
Inductive reply : Type :=
| HTTPException (status : Z)
| Reply (r : PredictResponse)
| Unhandled (e : exn).

Section Endpoint.

Variable net : nat -> string -> response.
Variable clock : nat -> Q.

(** The artifacts loaded at start-up.  [scaler], [clf], [red_reg] and
    [blue_reg] are opaque fitted models, read here as total functions on one
    row; when loading failed they are never called. *)
Variable MODELS_LOADED : bool.
Variable feature_cols : list string.
Variable scaler_transform : list Q -> list Q.
Variable clf_predict_proba : list Q -> Q.
Variable red_reg_predict : list Q -> Q.
Variable blue_reg_predict : list Q -> Q.

(** [build_features(red_teams, blue_teams, event_key, comp_level, event_week)] *)
Definition build_features (red_teams blue_teams : list Z) (event_key : string)
    (comp_level event_week : Z) (w : world) : outcome (option (list Q)) * world :=
  match fetch_all net clock red_teams event_key w with
  | (Raised e, w1) => (Raised e, w1)
  | (Returned red_epas, w1) =>
      match fetch_all net clock blue_teams event_key w1 with
      | (Raised e, w2) => (Raised e, w2)
      | (Returned blue_epas, w2) =>
          (feature_vector feature_cols red_epas blue_epas comp_level event_week, w2)
      end
  end.

(** The part of [predict] after [X] is known to be an array. *)
Definition respond (X : list Q) : PredictResponse :=
  let X_scaled := scaler_transform X in
  let win_prob := clf_predict_proba X_scaled in
  let red_score := Z.max 0 (py_round (red_reg_predict X_scaled)) in
  let blue_score := Z.max 0 (py_round (blue_reg_predict X_scaled)) in
  let winner := if Qlt_le_dec (1 # 2) win_prob then "red" else "blue" in
  {| winner := winner;
     win_probability :=
       py_round3 (if String.eqb winner "red" then win_prob else (1 - win_prob)%Q);
     red_score := red_score;
     blue_score := blue_score;
     margin := Z.abs (red_score - blue_score) |}.

(** [predict(req)] *)
Definition predict (req : PredictRequest) (w : world) : reply * world :=
  if negb MODELS_LOADED then (HTTPException 503, w)
  else if negb (length (red_teams req) =? 3)%nat || negb (length (blue_teams req) =? 3)%nat
  then (HTTPException 400, w)
  else
    match build_features (red_teams req) (blue_teams req) (event_key req)
            (comp_level req) (event_week req) w with
    | (Raised e, w1) => (Unhandled e, w1)
    | (Returned None, w1) => (HTTPException 422, w1)
    | (Returned (Some X), w1) => (Reply (respond X), w1)
    end.

End Endpoint.

End Server.

(** * Specification-side definitions *)

(** ** Rating extraction in the words of the design *)

Module ExtractionSpec.

(** The fallback chain in the words of the design: a value is usable as a
    number when it is one, or when it is an object whose [mean] is one. *)
Definition coerce (v : pyval) : option Q :=
  match v with
  | PDict c =>
      match dict_get c "mean" with
      | Some m => if is_number m then Some (number_of m) else None
      | None => None
      end
  | _ => if is_number v then Some (number_of v) else None
  end.

(** A field that cannot be coerced counts as [0.0]. *)
Definition or_zero (o : option Q) : Q :=
  match o with Some x => x | None => 0%Q end.





(** Every integer of a JSON document is within the range of a double. *)
Fixpoint ints_fit (v : pyval) : bool :=
  match v with
  | PInt z => fits_float z
  | PList l => forallb ints_fit l
  | PDict d =>
      (fix items (d : list (string * pyval)) : bool :=
         match d with
         | [] => true
         | (_, x) :: rest => ints_fit x && items rest
         end) d
  | _ => true
  end.

End ExtractionSpec.
Import ExtractionSpec.

(** ** Comparing what the two clients return *)

Module ParitySpec.

(** Python's [==] between the float [q] of a batch record and the value the
    serving record holds under [k]: numbers compare by value. *)
Definition same_field (q : Q) (d : pydict) (k : string) : bool :=
  match dict_get d k with
  | Some v => is_number v && Qeq_bool (number_of v) q
  | None => false
  end.

(** The two clients yield the same thing: both absent, or records equal
    field by field. *)
Definition same_rating (b : option TeamRating) (s : option pydict) : bool :=
  match b, s with
  | None, None => true
  | Some r, Some d =>
      same_field (total r) d "total" && same_field (auto r) d "auto" &&
      same_field (teleop r) d "teleop" && same_field (endgame r) d "endgame"
  | _, _ => false
  end.

Definition same_outcome (b : outcome (option TeamRating)) (s : outcome (option pydict))
  : bool :=
  match b, s with
  | Returned rb, Returned rs => same_rating rb rs
  | _, _ => false
  end.

(** A point category both clients read alike: missing, or an object whose
    [mean] is missing or a number. *)
Definition clean_category (bd : pydict) (category : string) : bool :=
  match dict_get bd category with
  | None => true
  | Some (PDict c) =>
      match dict_get c "mean" with
      | None => true
      | Some m => is_number m
      end
  | Some _ => false
  end.

End ParitySpec.
Import ParitySpec.

(** ** Alliance aggregation in the words of the design *)

Module AggregationSpec.

Local Open Scope Q_scope.




End AggregationSpec.
Import AggregationSpec.

(** ** A rating record as the data model has it *)

Module RatingSpec.



End RatingSpec.
Import RatingSpec.

(** ** Runs of lookups *)

Module CacheSpec.

(** The rest of a batch run, as far as the cache goes: any further lookups,
    one after the other. *)
Fixpoint lookups (net : nat -> string -> response) (ops : list (Z * string))
    (w : Pipeline.world) : Pipeline.world :=
  match ops with
  | [] => w
  | (team, ev) :: rest => lookups net rest (snd (Pipeline.get_team_epa net team ev w))
  end.

(** The server state after a lookup that was answered from the cache: only
    the clock has been read. *)
Definition clock_read (w : Server.world) : Server.world :=
  {| Server._epa_cache := Server._epa_cache w;
     Server.calls := Server.calls w;
     Server.ticks := S (Server.ticks w) |}.

End CacheSpec.
Import CacheSpec.

(** * More of the code *)

(** ** scripts/data_pipeline.py: years, events, matches and the row loop *)

Module Collect.

Definition TBA_BASE : string := "https://www.thebluealliance.com/api/v3".

(** How a function that may call [sys.exit] ends. *)
Inductive ended (A : Type) : Type :=
| Exit (code : Z)
| Done (a : A).
Arguments Exit {A} code.
Arguments Done {A} a.

(** [s.split(",")] *)
Fixpoint split_comma (s : string) : list string :=
  match s with
  | EmptyString => [EmptyString]
  | String c rest =>
      if Ascii.eqb c ","%char then EmptyString :: split_comma rest
      else match split_comma rest with
           | piece :: pieces => String c piece :: pieces
           | [] => [String c EmptyString]
           end
  end.

(** [raw.strip()] *)
Definition str_strip (s : string) : string :=
  string_of_list_ascii (Pipeline.strip Pipeline.is_space (list_ascii_of_string s)).

(** Insertion of one number into an increasing list without repetition. *)
Fixpoint insert_sorted (x : Z) (l : list Z) : list Z :=
  match l with
  | [] => [x]
  | y :: rest =>
      if (x <? y)%Z then x :: l
      else if (x =? y)%Z then l
      else y :: insert_sorted x rest
  end.

(** [sorted(set(years))] *)
Definition sorted_set (years : list Z) : list Z :=
  fold_right insert_sorted [] years.

(** The [for raw in env_years.split(",")] loop: [None] stands for the
    [sys.exit(1)] of an invalid year. *)
Fixpoint read_years (pieces : list string) (years : list Z) : option (list Z) :=
  match pieces with
  | [] => Some years
  | raw :: rest =>
      let raw := str_strip raw in
      if String.eqb raw "" then read_years rest years
      else match Pipeline.py_int raw with
           | Some y => read_years rest (years ++ [y])
           | None => None
           end
  end.

(** [parse_years()]: [env_years] is [os.environ.get("SCOUTAI_YEARS")],
    [current_year] is [datetime.utcnow().year]. *)
Definition parse_years (env_years : option string) (current_year : Z) : ended (list Z) :=
  match env_years with
  | Some text =>
      if String.eqb text "" then Done [current_year - 3; current_year - 2; current_year - 1]%Z
      else match read_years (split_comma text) [] with
           | None => Exit 1
           | Some [] => Exit 1
           | Some years => Done (sorted_set years)
           end
  | None => Done [current_year - 3; current_year - 2; current_year - 1]%Z
  end.

Section Tba.

(** The match service: the answer to a request for a URL. *)
Variable tba : string -> response.

(** [tba_get(endpoint)] *)
Definition tba_get (endpoint : string) : pyval :=
  match tba (TBA_BASE +:+ endpoint) with
  | Response 200 (Some body) => body
  | _ => PNone
  end.

(** [for x in v]: the items of a list, the keys of a dict, the characters of
    a string; nothing else can be iterated. *)
Definition py_iter (v : pyval) : outcome (list pyval) :=
  match v with
  | PList l => Returned l
  | PDict d => Returned (map (fun kv => PStr (fst kv)) d)
  | PStr s => Returned (map (fun c => PStr (String c EmptyString)) (list_ascii_of_string s))
  | _ => Raised TypeError
  end.

(** [[x for x in items if keep(x)]]: the first exception ends it. *)
Fixpoint py_filter (keep : pyval -> outcome bool) (items : list pyval)
  : outcome (list pyval) :=
  match items with
  | [] => Returned []
  | x :: rest =>
      b <- keep x ;;
      kept <- py_filter keep rest ;;
      Returned (if b then x :: kept else kept)
  end.

(** [v == n] for an integer literal [n]: numbers compare by value. *)
Definition py_eq_int (v : pyval) (n : Z) : bool :=
  is_number v && Qeq_bool (number_of v) (inject_Z n).

(** [e.get("event_type") in [0, 1, 2, 3, 4, 5, 6]] *)
Definition is_official (e : pyval) : outcome bool :=
  t <- py_attr_get e "event_type" PNone ;;
  Returned (existsb (py_eq_int t) [0; 1; 2; 3; 4; 5; 6]%Z).

(** [fetch_events_for_year(year)] *)
Definition fetch_events_for_year (year : Z) : outcome (list pyval) :=
  let events := tba_get ("/events/" +:+ pretty year) in
  if truthy events then items <- py_iter events ;; py_filter is_official items
  else Returned [].

(** [v >= 0]: defined between numbers only. *)
Definition py_ge_zero (v : pyval) : outcome bool :=
  if is_number v then Returned (Qle_bool 0 (number_of v)) else Raised TypeError.

(** [m.get("alliances", {}).get(color, {}).get("score", -1) >= 0] *)
Definition has_score (m : pyval) (color : string) : outcome bool :=
  alliances <- py_attr_get m "alliances" (PDict []) ;;
  side <- py_attr_get alliances color (PDict []) ;;
  s <- py_attr_get side "score" (PInt (-1)) ;;
  py_ge_zero s.

(** The condition of the comprehension: red [and] blue, the blue side looked
    at only when the red one holds. *)
Definition is_completed (m : pyval) : outcome bool :=
  r <- has_score m "red" ;;
  if r then has_score m "blue" else Returned false.

(** [fetch_matches_for_event(event_key)] *)
Definition fetch_matches_for_event (event_key : string) : outcome (list pyval) :=
  let matches := tba_get ("/event/" +:+ event_key +:+ "/matches") in
  if truthy matches then items <- py_iter matches ;; py_filter is_completed items
  else Returned [].

End Tba.

(** A value of a dataset row: a number or a text. *)
Inductive cell : Type :=
| Num (q : Q)
| Text (s : string).

Section Rows.

Variable net : nat -> string -> response.

(** The [for match in matches] loop of [main] for one event: every row that
    [build_feature_vector] returns (and that is not an empty dict: [if row:])
    gets [year] and [event_key] and is added to [all_rows]; an exception ends
    the run. *)
Fixpoint collect_rows (year : Z) (event : Pipeline.tba_event)
    (matches : list Pipeline.tba_match) (all_rows : list (odict cell))
    (w : Pipeline.world) : outcome (list (odict cell)) * Pipeline.world :=
  match matches with
  | [] => (Returned all_rows, w)
  | m :: rest =>
      match Pipeline.build_feature_vector net m event w with
      | (Raised e, w1) => (Raised e, w1)
      | (Returned None, w1) | (Returned (Some []), w1) =>
          collect_rows year event rest all_rows w1
      | (Returned (Some row), w1) =>
          let row := map (fun kv => (fst kv, Num (snd kv))) row in
          let row := dict_set row "year" (Num (inject_Z year)) in
          let row := dict_set row "event_key" (Text (Pipeline.key event)) in
          collect_rows year event rest (all_rows ++ [row]) w1
      end
  end.

End Rows.

End Collect.

(** ** What the added code is compared with *)

Module MoreSpec.

(** The Python dict that the batch client returns for a rating. *)
Definition as_record (r : TeamRating) : pydict :=
  [("total", PFloat (total r)); ("auto", PFloat (auto r));
   ("teleop", PFloat (teleop r)); ("endgame", PFloat (endgame r))].

(** A string of decimal digits. *)
Definition all_digits (s : string) : Prop :=
  Forall (fun c => Pipeline.digit_of c <> None) (list_ascii_of_string s).

(** An integer whose decimal text has no more digits than [int] accepts. *)
Definition int_readable (z : Z) : Prop :=
  (Z.abs z < 10 ^ Z.of_nat Pipeline.INT_MAX_STR_DIGITS)%Z.

(** No rating URL has been requested twice, and what has been requested is
    in the cache. *)
Definition requests_settled (w : Pipeline.world) : Prop :=
  List.NoDup (Pipeline.calls w) /\
  forall team ev,
    In (STATBOTICS_BASE +:+ team_event_endpoint team ev) (Pipeline.calls w) ->
    Pipeline.epa_cache w !! cache_key team ev <> None.

(** The columns of a dataset row. *)
Definition DATASET_COLS : list string :=
  (Train.FEATURE_COLS ++
   ["winner"; "red_score"; "blue_score"; "score_margin"; "year"; "event_key"])%list.

(** An answer that carries no usable body: a failed request, a status other
    than 200, or a 200 whose body is not JSON. *)
Definition no_body (r : response) : bool :=
  match r with
  | Response 200 (Some _) => false
  | _ => true
  end.

End MoreSpec.
Import MoreSpec.

(** ** Years in the words of their use *)

Module YearsSpec.

(** Strictly increasing: every item is below all later ones. *)
Fixpoint increasing (l : list Z) : Prop :=
  match l with
  | [] => True
  | x :: rest => (forall y, In y rest -> (x < y)%Z) /\ increasing rest
  end.

(** [",".join(pieces)] *)
Fixpoint comma_join (pieces : list string) : string :=
  match pieces with
  | [] => ""
  | [s] => s
  | s :: rest => s +:+ String ","%char (comma_join rest)
  end.

(** A piece of [SCOUTAI_YEARS] that the loop accepts: blank, or a number. *)
Definition piece_ok (raw : string) : Prop :=
  Collect.str_strip raw = "" \/ Pipeline.py_int (Collect.str_strip raw) <> None.

End YearsSpec.
Import YearsSpec.

(** * Concrete inputs *)

(** A run that has not asked for anything yet. *)
Definition fresh_run : Pipeline.world :=
  {| Pipeline.epa_cache := ∅; Pipeline.calls := [] |}.

(** A rating service that answers every request with status 200 and the same
    body. *)
Definition always (body : pyval) : nat -> string -> response :=
  fun _ _ => Response 200 (Some body).

(** A structured rating object; the teleop mean is not a number and the
    endgame category is a bare number. *)
Definition structured_breakdown : pydict :=
  [("total_points", PDict [("mean", PFloat (125 # 2)); ("sd", PFloat (3 # 1))]);
   ("auto_points", PDict [("mean", PInt 20)]);
   ("teleop_points", PDict [("mean", PStr "n/a")]);
   ("endgame_points", PFloat (15 # 2))].

Definition structured_epa : pydict := [("breakdown", PDict structured_breakdown)].

Definition structured_payload : pydict :=
  [("team", PInt 254); ("epa", PDict structured_epa)].

(** A server process that has just started. *)
Definition fresh_server : Server.world :=
  {| Server._epa_cache := ∅; Server.calls := []; Server.ticks := 0 |}.

(** A clock that stands still. *)
Definition noon : nat -> Q := fun _ => 43200%Q.

(** A season whose rating object is flat: no [breakdown]. *)
Definition flat_epa : pydict :=
  [("total_points", PFloat (81 # 2)); ("auto_points", PInt 10);
   ("teleop_points", PInt 25); ("endgame_points", PFloat (11 # 2))].

Definition flat_payload : pydict := [("team", PInt 254); ("epa", PDict flat_epa)].

(** A 200 answer that says nothing about the rating. *)
Definition unrated_payload : pydict := [("team", PInt 254)].

(** A breakdown whose categories are bare numbers. *)
Definition numeric_breakdown_payload : pydict :=
  [("team", PInt 254);
   ("epa", PDict [("breakdown",
      PDict [("total_points", PFloat (123 # 2)); ("auto_points", PInt 12);
             ("teleop_points", PInt 40); ("endgame_points", PFloat (19 # 2))])])].

(** A season whose rating is one number. *)
Definition scalar_payload : pydict := [("team", PInt 254); ("epa", PFloat (25 # 2))].

(** Three rated teams with totals 10, 20 and 30. *)
Definition rated (t : Q) : TeamRating :=
  {| total := t; auto := 0; teleop := 0; endgame := 0 |}.


(** A rating service given by a table from URL to answer; 404 elsewhere. *)
Definition service (table : odict response) : nat -> string -> response :=
  fun _ url =>
    match dict_get table url with
    | Some r => r
    | None => Response 404 None
    end.

Definition url_of (team : Z) (ev : string) : string :=
  STATBOTICS_BASE +:+ team_event_endpoint team ev.

(** A structured 200 answer with the given total. *)
Definition rating_body (t : Q) : response :=
  Response 200 (Some (PDict [("epa", PDict [("breakdown",
    PDict [("total_points", PDict [("mean", PFloat t)]);
           ("auto_points", PDict [("mean", PInt 0)]);
           ("teleop_points", PDict [("mean", PInt 0)]);
           ("endgame_points", PDict [("mean", PInt 0)])])])])).

(** Red: only team 1 is rated at the event.  Blue: teams 4, 5 and 6 are. *)
Definition lone_red : nat -> string -> response :=
  service [(url_of 1 "2024casj", rating_body 50);
           (url_of 4 "2024casj", rating_body 20);
           (url_of 5 "2024casj", rating_body 25);
           (url_of 6 "2024casj", rating_body 30)].

(** Red 50, 40, 30; blue 20, 25 and one team without a rating. *)
Definition two_blue : nat -> string -> response :=
  service [(url_of 1 "2024casj", rating_body 50);
           (url_of 2 "2024casj", rating_body 40);
           (url_of 3 "2024casj", rating_body 30);
           (url_of 4 "2024casj", rating_body 20);
           (url_of 5 "2024casj", rating_body 25)].

Definition casj : Pipeline.tba_event :=
  {| Pipeline.key := "2024casj"; Pipeline.week := Some 2%Z |}.

(** Qualification match, red 1-2-3 against blue 4-5-6, with the given scores. *)
Definition qm_match (red_score blue_score : Z) : Pipeline.tba_match :=
  {| Pipeline.red := {| Pipeline.team_keys := ["frc1"; "frc2"; "frc3"];
                        Pipeline.score := red_score |};
     Pipeline.blue := {| Pipeline.team_keys := ["frc4"; "frc5"; "frc6"];
                         Pipeline.score := blue_score |};
     Pipeline.comp_level := Some "qm" |}.

(** Clocks: the first read is at 0, every later read at the given time. *)
Definition later (t : Q) : nat -> Q :=
  fun n => match n with O => 0%Q | S _ => t end.

(** Stand-ins for the fitted models: an identity scaler, a classifier that
    gives red the probability [p], regressors that answer [r] and [b]. *)
Definition no_scaling : list Q -> list Q := fun X => X.
Definition constant (x : Q) : list Q -> Q := fun _ => x.

Definition casj_request : Server.PredictRequest :=
  {| Server.red_teams := [1; 2; 3]%Z; Server.blue_teams := [4; 5; 6]%Z;
     Server.event_key := "2024casj"; Server.comp_level := 0; Server.event_week := 2 |}.

(** A match record of the match service as JSON. *)
Definition json_match (red_score blue_score : Z) : pyval :=
  PDict [("comp_level", PStr "qm");
         ("alliances",
          PDict [("red", PDict [("score", PInt red_score);
                                ("team_keys", PList [PStr "frc1"; PStr "frc2"; PStr "frc3"])]);
                 ("blue", PDict [("score", PInt blue_score);
                                 ("team_keys", PList [PStr "frc4"; PStr "frc5"; PStr "frc6"])])])].

(** An event record of the match service as JSON. *)
Definition json_event (key : string) (event_type : pyval) : pyval :=
  PDict [("key", PStr key); ("event_type", event_type)].

(** A match service that knows one event with a played match, an unplayed
    match and a record without alliances, and one year with four events. *)
Definition demo_tba : string -> response :=
  fun url =>
    match dict_get
            [(Collect.TBA_BASE +:+ "/event/2024casj/matches",
              Response 200 (Some (PList [json_match 80 60; json_match (-1) (-1);
                                         PDict [("comp_level", PStr "qm")]])));
             (Collect.TBA_BASE +:+ "/events/2024",
              Response 200 (Some (PList [json_event "2024casj" (PInt 0);
                                         json_event "2024offs" (PInt 99);
                                         json_event "2024cmp" (PInt 3);
                                         json_event "2024pre" (PInt 100)])))] url with
    | Some r => r
    | None => Response 404 None
    end.




(** * Properties *)

(** ** Rating extraction in the batch client *)

Lemma ints_fit_get d k : ints_fit (PDict d) = true -> ints_fit (py_get d k) = true.
Proof.
  unfold py_get. induction d as [|[k' x] d IH]; [reflexivity|].
  cbn [ints_fit dict_get]. intros H. apply andb_prop in H as [Hx Hd].
  destruct (String.eqb k' k); [exact Hx | exact (IH Hd)].
Qed.

Lemma ints_fit_py_or a b :
  ints_fit a = true -> ints_fit b = true -> ints_fit (py_or a b) = true.
Proof. intros Ha Hb. unfold py_or. now destruct (truthy a). Qed.

(** [float] returns on every number that fits, and raises nothing but an
    [OverflowError]. *)
Lemma float_fits v : ints_fit v = true -> float v = Returned (number_of v).
Proof.
  destruct v as [| b | z | q | s | l | c]; try reflexivity.
  cbn [ints_fit float number_of]. now intros ->.
Qed.

Lemma float_raises v e : float v = Raised e -> e = OverflowError.
Proof.
  destruct v as [| b | z | q | s | l | c]; cbn [float]; try discriminate.
  destruct (fits_float z); [discriminate | congruence].
Qed.

Lemma safe_mean_coerce v :
  ints_fit v = true -> Pipeline.safe_mean v = Returned (or_zero (coerce v)).
Proof.
  intros Hv.
  destruct v as [| b | z | q | s | l | c];
    try reflexivity; try exact (float_fits _ Hv).
  cbn [Pipeline.safe_mean coerce]. pose proof (ints_fit_get c "mean" Hv) as Hm.
  unfold py_get in *. destruct (dict_get c "mean") as [m|]; [|reflexivity].
  cbn [is_number]. destruct (is_number m); [exact (float_fits _ Hm) | reflexivity].
Qed.

Lemma safe_mean_raises v e : Pipeline.safe_mean v = Raised e -> e = OverflowError.
Proof.
  destruct v as [| b | z | q | s | l | c]; cbn [Pipeline.safe_mean is_number];
    try discriminate; try apply float_raises.
  destruct (is_number (py_get c "mean")); [apply float_raises | discriminate].
Qed.

(** An object with a numeric [mean] is read as that mean; a bare number as
    itself. *)
Lemma coerce_mean c m :
  dict_get c "mean" = Some m -> is_number m = true -> coerce (PDict c) = Some (number_of m).
Proof. intros Hc Hm. cbn [coerce]. now rewrite Hc, Hm. Qed.

Lemma coerce_number v :
  is_number v = true -> coerce v = Some (number_of v).
Proof. destruct v; try discriminate; reflexivity. Qed.







Lemma payload_with_epa p epa :
  dict_get p "epa" = Some epa ->
  Pipeline.rating_of_payload (PDict p) = Pipeline.epa_result epa.
Proof.
  intros H. unfold Pipeline.rating_of_payload.
  destruct p as [|kv p']; [discriminate|].
  cbn [truthy py_in py_index obind]. unfold py_get. rewrite H. reflexivity.
Qed.

(** [epa_result] raises nothing but the [OverflowError] of a conversion, and
    returns when every integer fits. *)
Lemma epa_result_raises epa e : Pipeline.epa_result epa = Raised e -> e = OverflowError.
Proof.
  unfold Pipeline.epa_result.
  destruct epa as [| b | z | q | s | l | c]; cbn [is_number obind float number_of];
    try discriminate.
  - destruct (fits_float z); cbn [obind]; [discriminate | congruence].
  - destruct (py_get c "breakdown");
      repeat match goal with
      | |- obind ?m _ = Raised _ -> _ =>
          let E := fresh "E" in
          destruct m eqn:E; cbn [obind];
            [intros [= <-]; exact (safe_mean_raises _ _ E)|]
      end; discriminate.
Qed.

Lemma epa_result_fits epa :
  ints_fit epa = true -> exists r, Pipeline.epa_result epa = Returned r.
Proof.
  intros Hfit. unfold Pipeline.epa_result.
  destruct epa as [| b | z | q | s | l | c]; cbn [is_number];
    try (rewrite (float_fits _ Hfit)); try (eexists; reflexivity).
  assert (forall k, ints_fit (py_get c k) = true) as Hk
    by (intros k; exact (ints_fit_get c k Hfit)).
  destruct (py_get c "breakdown") as [| | | | | |bd] eqn:Hbd;
    try (rewrite !safe_mean_coerce by (repeat apply ints_fit_py_or; apply Hk);
         eexists; reflexivity).
  assert (forall k, ints_fit (py_get bd k) = true) as Hb.
  { intros k. apply ints_fit_get. rewrite <- Hbd. apply Hk. }
  rewrite !safe_mean_coerce by apply Hb. eexists; reflexivity.
Qed.

(** What a cache miss of the batch client returns and stores. *)
Lemma get_team_epa_miss net team ev (w : Pipeline.world) :
  Pipeline.epa_cache w !! cache_key team ev = None ->
  Pipeline.get_team_epa net team ev w =
  let url := STATBOTICS_BASE +:+ team_event_endpoint team ev in
  match Pipeline.rating_of_payload
          (Pipeline.statbotics_get (net (length (Pipeline.calls w)) url)) with
  | Returned result =>
      (Returned result,
       {| Pipeline.epa_cache := <[cache_key team ev := result]> (Pipeline.epa_cache w);
          Pipeline.calls := Pipeline.calls w ++ [url] |})
  | Raised e =>
      (Raised e, {| Pipeline.epa_cache := Pipeline.epa_cache w;
                    Pipeline.calls := Pipeline.calls w ++ [url] |})
  end.
Proof. intros H. unfold Pipeline.get_team_epa. rewrite H. reflexivity. Qed.




(** ** The two clients side by side *)

(** On one clean category the batch helper and the serving chain read the
    same number. *)
Lemma clean_category_agrees bd category :
  ints_fit (PDict bd) = true ->
  clean_category bd category = true ->
  exists v, Server.category_mean (PDict bd) category = Returned v /\
            is_number v = true /\
            Pipeline.safe_mean (py_get bd category) = Returned (number_of v).
Proof.
  intros Hfit. pose proof (ints_fit_get bd category Hfit) as Hc. revert Hc.
  unfold clean_category, Server.category_mean, py_get. cbn [py_attr_get obind].
  unfold py_get_default.
  destruct (dict_get bd category) as [[| | | | | |c]|]; try discriminate.
  - intros Hc Hm. pose proof (ints_fit_get c "mean" Hc) as Hmean. revert Hmean.
    cbn [py_attr_get Pipeline.safe_mean]. unfold py_get_default, py_get.
    destruct (dict_get c "mean") as [m|].
    + intros Hmean. exists m. rewrite Hm. repeat split. exact (float_fits _ Hmean).
    + intros _. exists (PInt 0). repeat split.
  - intros _ _. exists (PInt 0). repeat split.
Qed.

(** Where the payload has the structured shape, with clean categories and
    integers within the range of a double, the two clients do agree. *)
Lemma rating_paths_agree_on_structured p e bd :
  dict_get p "epa" = Some (PDict e) ->
  dict_get e "breakdown" = Some (PDict bd) ->
  ints_fit (PDict bd) = true ->
  clean_category bd "total_points" = true ->
  clean_category bd "auto_points" = true ->
  clean_category bd "teleop_points" = true ->
  clean_category bd "endgame_points" = true ->
  same_outcome (Pipeline.rating_of_payload (PDict p))
               (Server.try_fetch (Response 200 (Some (PDict p)))) = true.
Proof.
  intros Hp He Hfit H1 H2 H3 H4.
  rewrite (payload_with_epa _ _ Hp).
  assert (py_get_default p "epa" (PDict []) = PDict e) as Hp'
    by (unfold py_get_default; now rewrite Hp).
  assert (py_get_default e "breakdown" (PDict []) = PDict bd) as He'
    by (unfold py_get_default; now rewrite He).
  assert (py_get e "breakdown" = PDict bd) as He''
    by (unfold py_get; now rewrite He).
  cbn [Server.try_fetch Server.result_of_body py_attr_get obind].
  rewrite Hp'. cbn [py_attr_get obind]. rewrite !He'.
  cbn [Pipeline.epa_result]. rewrite He''.
  destruct (clean_category_agrees _ _ Hfit H1) as (v1 & -> & N1 & ->).
  destruct (clean_category_agrees _ _ Hfit H2) as (v2 & -> & N2 & ->).
  destruct (clean_category_agrees _ _ Hfit H3) as (v3 & -> & N3 & ->).
  destruct (clean_category_agrees _ _ Hfit H4) as (v4 & -> & N4 & ->).
  cbn [obind same_outcome same_rating total auto teleop endgame].
  unfold same_field. cbn [dict_get String.eqb Ascii.eqb Bool.eqb].
  rewrite N1, N2, N3, N4. cbn [andb].
  rewrite !(proj2 (Qeq_bool_iff _ _) (Qeq_refl _)). reflexivity.
Qed.

(** C1, at the failing inputs.  A 200 answer whose rating object is flat
    (no [breakdown]): the batch client reads the flat keys, the serving
    client returns a record of zeros.  A 200 answer without any [epa]: the
    batch client yields absent, the serving client again a record of zeros. *)
Theorem rating_paths_diverge_on_flat_payload :
  fst (Pipeline.get_team_epa (always (PDict flat_payload)) 254 "2019casj" fresh_run)
    = Returned (Some {| total := 81 # 2; auto := 10; teleop := 25; endgame := 11 # 2 |}) /\
  fst (Server.get_team_epa_cached (always (PDict flat_payload)) noon 254 "2019casj"
         fresh_server)
    = Returned (Some [("total", PInt 0); ("auto", PInt 0);
                      ("teleop", PInt 0); ("endgame", PInt 0)]) /\
  same_outcome
    (fst (Pipeline.get_team_epa (always (PDict flat_payload)) 254 "2019casj" fresh_run))
    (fst (Server.get_team_epa_cached (always (PDict flat_payload)) noon 254 "2019casj"
            fresh_server))
    = false /\
  fst (Pipeline.get_team_epa (always (PDict unrated_payload)) 254 "2019casj" fresh_run)
    = Returned None /\
  fst (Server.get_team_epa_cached (always (PDict unrated_payload)) noon 254 "2019casj"
         fresh_server)
    = Returned (Some [("total", PInt 0); ("auto", PInt 0);
                      ("teleop", PInt 0); ("endgame", PInt 0)]).
Proof. repeat split; vm_compute; reflexivity. Qed.

(** ** Exceptions that escape a rating fetch *)

(** The batch client returns on every failed request, every status and every
    body that is null or a JSON object whose integers are within the range
    of a double; on a JSON object it raises nothing but the [OverflowError]
    of a conversion. *)
Lemma rating_of_payload_object p :
  ints_fit (PDict p) = true ->
  exists r, Pipeline.rating_of_payload (PDict p) = Returned r.
Proof.
  intros Hfit. destruct (dict_get p "epa") as [epa|] eqn:Hepa.
  - rewrite (payload_with_epa _ _ Hepa). apply epa_result_fits.
    pose proof (ints_fit_get p "epa" Hfit) as H. unfold py_get in H.
    now rewrite Hepa in H.
  - unfold Pipeline.rating_of_payload.
    destruct p as [|kv p']; [eexists; reflexivity|].
    cbn [truthy py_in py_index obind]. rewrite Hepa. eexists; reflexivity.
Qed.

Lemma rating_of_payload_raises p e :
  Pipeline.rating_of_payload (PDict p) = Raised e -> e = OverflowError.
Proof.
  destruct (dict_get p "epa") as [epa|] eqn:Hepa.
  - rewrite (payload_with_epa _ _ Hepa). apply epa_result_raises.
  - unfold Pipeline.rating_of_payload.
    destruct p as [|kv p']; [discriminate|].
    cbn [truthy py_in py_index obind]. rewrite Hepa. discriminate.
Qed.

(** C3, at the failing inputs.  The serving client lets an [AttributeError]
    escape when a 200 answer carries a breakdown whose categories are bare
    numbers, and when it carries a bare number as [epa]; the batch client
    returns a rating on both.  The batch client lets a [TypeError] escape
    when the body of a 200 answer is a bare number. *)
Theorem rating_fetch_raises :
  fst (Server.get_team_epa_cached (always (PDict numeric_breakdown_payload)) noon
         254 "2024casj" fresh_server) = Raised AttributeError /\
  fst (Pipeline.get_team_epa (always (PDict numeric_breakdown_payload)) 254 "2024casj" fresh_run)
    = Returned (Some {| total := 123 # 2; auto := 12; teleop := 40; endgame := 19 # 2 |}) /\
  fst (Server.get_team_epa_cached (always (PDict scalar_payload)) noon
         254 "2019casj" fresh_server) = Raised AttributeError /\
  fst (Pipeline.get_team_epa (always (PDict scalar_payload)) 254 "2019casj" fresh_run)
    = Returned (Some {| total := 25 # 2; auto := 0; teleop := 0; endgame := 0 |}) /\
  fst (Pipeline.get_team_epa (always (PInt 7)) 254 "2019casj" fresh_run)
    = Raised TypeError.
Proof. repeat split; vm_compute; reflexivity. Qed.

(** ** Alliance aggregation *)

Section Aggregation.

Local Open Scope Q_scope.









End Aggregation.


(** ** Sufficiency gates *)

Lemma pair_from_fst {A B} (p : A * B) (a : A) : fst p = a -> p = (a, snd p).
Proof. intros <-. apply surjective_pairing. Qed.










(** ** The shape of a training row *)

(** [alliance_features] always returns its six fields, in one order. *)
Lemma alliance_features_fields (epas : list (option TeamRating)) (prefix : string) :
  exists avg_epa avg_auto avg_teleop avg_endgame sum_epa max_epa,
    Pipeline.alliance_features epas prefix =
      [(prefix +:+ "_avg_epa", avg_epa); (prefix +:+ "_avg_auto", avg_auto);
       (prefix +:+ "_avg_teleop", avg_teleop); (prefix +:+ "_avg_endgame", avg_endgame);
       (prefix +:+ "_sum_epa", sum_epa); (prefix +:+ "_max_epa", max_epa)].
Proof.
  unfold Pipeline.alliance_features.
  destruct (valid_of epas); do 6 eexists; reflexivity.
Qed.

(** A row that [feature_row] emits lists the sixteen features, then the
    label and the scores, and its label follows the scores. *)
Lemma feature_row_shape m ev red_epas blue_epas row :
  Pipeline.feature_row m ev red_epas blue_epas = Some row ->
  exists f1 f2 f3 f4 f5 f6 f7 f8 f9 f10 f11 f12 f13 f14 f15 f16 winner,
    row =
      [("red_avg_epa", f1); ("red_avg_auto", f2); ("red_avg_teleop", f3);
       ("red_avg_endgame", f4); ("red_sum_epa", f5); ("red_max_epa", f6);
       ("blue_avg_epa", f7); ("blue_avg_auto", f8); ("blue_avg_teleop", f9);
       ("blue_avg_endgame", f10); ("blue_sum_epa", f11); ("blue_max_epa", f12);
       ("comp_level", f13); ("event_week", f14);
       ("epa_diff", f15); ("avg_epa_diff", f16);
       ("winner", inject_Z winner);
       ("red_score", inject_Z (Pipeline.score (Pipeline.red m)));
       ("blue_score", inject_Z (Pipeline.score (Pipeline.blue m)));
       ("score_margin",
        inject_Z (Pipeline.score (Pipeline.red m) - Pipeline.score (Pipeline.blue m)))] /\
    ((Pipeline.score (Pipeline.blue m) < Pipeline.score (Pipeline.red m))%Z /\ winner = 1%Z \/
     (Pipeline.score (Pipeline.red m) < Pipeline.score (Pipeline.blue m))%Z /\ winner = 0%Z).
Proof.
  unfold Pipeline.feature_row.
  destruct (_ || _); [discriminate|].
  destruct (alliance_features_fields red_epas "red")
    as (a1 & a2 & a3 & a4 & a5 & a6 & ->).
  destruct (alliance_features_fields blue_epas "blue")
    as (b1 & b2 & b3 & b4 & b5 & b6 & ->).
  destruct (Z.ltb_spec (Pipeline.score (Pipeline.blue m)) (Pipeline.score (Pipeline.red m)))
    as [Hr|Hr].
  - intros [= <-]. do 16 eexists. exists 1%Z. split; [reflexivity | left; split; [exact Hr | reflexivity]].
  - destruct (Z.ltb_spec (Pipeline.score (Pipeline.red m)) (Pipeline.score (Pipeline.blue m)))
      as [Hb|Hb]; [|discriminate].
    intros [= <-]. do 16 eexists. exists 0%Z. split; [reflexivity | right; split; [exact Hb | reflexivity]].
Qed.

(** A match that passes the gate and is not a tie does yield a row. *)
Lemma feature_row_emitted m ev red_epas blue_epas :
  (2 <= length (valid_of red_epas))%nat ->
  (2 <= length (valid_of blue_epas))%nat ->
  Pipeline.score (Pipeline.red m) <> Pipeline.score (Pipeline.blue m) ->
  exists row, Pipeline.feature_row m ev red_epas blue_epas = Some row.
Proof.
  intros Hr Hb Hne. unfold Pipeline.feature_row.
  destruct (Nat.ltb_spec (length (valid_of red_epas)) 2); [lia|].
  destruct (Nat.ltb_spec (length (valid_of blue_epas)) 2); [lia|].
  cbn [orb].
  destruct (Z.ltb_spec (Pipeline.score (Pipeline.blue m)) (Pipeline.score (Pipeline.red m)));
    [eexists; reflexivity|].
  destruct (Z.ltb_spec (Pipeline.score (Pipeline.red m)) (Pipeline.score (Pipeline.blue m)));
    [eexists; reflexivity | lia].
Qed.

(** What [build_feature_vector] returns is what [feature_row] makes of the
    ratings it fetched. *)
Lemma build_feature_vector_row net m ev (w : Pipeline.world) row :
  fst (Pipeline.build_feature_vector net m ev w) = Returned (Some row) ->
  exists red_epas blue_epas w1 w2,
    Pipeline.fetch_all net (take 3 (Pipeline.extract_team_numbers (Pipeline.red m)))
      (Pipeline.key ev) w = (Returned red_epas, w1) /\
    Pipeline.fetch_all net (take 3 (Pipeline.extract_team_numbers (Pipeline.blue m)))
      (Pipeline.key ev) w1 = (Returned blue_epas, w2) /\
    Pipeline.feature_row m ev red_epas blue_epas = Some row.
Proof.
  unfold Pipeline.build_feature_vector.
  destruct (_ || _); [discriminate|].
  destruct (Pipeline.fetch_all net _ _ w) as [[e|red_epas] w1] eqn:Hred; [discriminate|].
  destruct (Pipeline.fetch_all net _ _ w1) as [[e|blue_epas] w2] eqn:Hblue; [discriminate|].
  cbn [fst]. intros [= H]. exists red_epas, blue_epas, w1, w2. auto.
Qed.

(** ** The winner label *)

(** C8.  The label of the batch path.  Whenever [build_feature_vector] emits
    a row, either the red score is the larger one and [winner] is 1, or the
    blue score is the larger one and [winner] is 0; a match with equal scores
    never yields a row.  The label is total on the other matches: if the
    ratings were fetched, both alliances name three teams and pass the gate,
    and the scores differ, a row is emitted. *)
Theorem winner_label net m ev (w : Pipeline.world) :
  let out := fst (Pipeline.build_feature_vector net m ev w) in
  let red_score := Pipeline.score (Pipeline.red m) in
  let blue_score := Pipeline.score (Pipeline.blue m) in
  (forall row, out = Returned (Some row) ->
     (blue_score < red_score)%Z /\ dict_get row "winner" = Some 1%Q \/
     (red_score < blue_score)%Z /\ dict_get row "winner" = Some 0%Q) /\
  (red_score = blue_score -> forall row, out <> Returned (Some row)) /\
  (forall red_epas blue_epas w1 w2,
     (3 <= length (Pipeline.extract_team_numbers (Pipeline.red m)))%nat ->
     (3 <= length (Pipeline.extract_team_numbers (Pipeline.blue m)))%nat ->
     Pipeline.fetch_all net (take 3 (Pipeline.extract_team_numbers (Pipeline.red m)))
       (Pipeline.key ev) w = (Returned red_epas, w1) ->
     Pipeline.fetch_all net (take 3 (Pipeline.extract_team_numbers (Pipeline.blue m)))
       (Pipeline.key ev) w1 = (Returned blue_epas, w2) ->
     (2 <= length (valid_of red_epas))%nat ->
     (2 <= length (valid_of blue_epas))%nat ->
     red_score <> blue_score ->
     exists row, out = Returned (Some row)).
Proof.
  intros out red_score blue_score. subst out red_score blue_score.
  assert (Hlabel : forall row,
    fst (Pipeline.build_feature_vector net m ev w) = Returned (Some row) ->
    (Pipeline.score (Pipeline.blue m) < Pipeline.score (Pipeline.red m))%Z /\
      dict_get row "winner" = Some 1%Q \/
    (Pipeline.score (Pipeline.red m) < Pipeline.score (Pipeline.blue m))%Z /\
      dict_get row "winner" = Some 0%Q).
  { intros row Hrow.
    destruct (build_feature_vector_row _ _ _ _ _ Hrow) as (re & be & w1 & w2 & _ & _ & Hfr).
    destruct (feature_row_shape _ _ _ _ _ Hfr)
      as (f1 & f2 & f3 & f4 & f5 & f6 & f7 & f8 & f9 & f10 & f11 & f12 & f13 & f14
          & f15 & f16 & win & -> & [[Hlt ->]|[Hlt ->]]);
      [left | right]; (split; [exact Hlt | reflexivity]). }
  split; [exact Hlabel|]. split.
  - intros Htie row Hrow. destruct (Hlabel row Hrow) as [[Hlt _]|[Hlt _]]; lia.
  - intros red_epas blue_epas w1 w2 L3r L3b Hred Hblue Vr Vb Hne.
    unfold Pipeline.build_feature_vector.
    destruct (Nat.ltb_spec (length (Pipeline.extract_team_numbers (Pipeline.red m))) 3); [lia|].
    destruct (Nat.ltb_spec (length (Pipeline.extract_team_numbers (Pipeline.blue m))) 3); [lia|].
    cbn [orb]. rewrite Hred, Hblue. cbn [fst].
    destruct (feature_row_emitted m ev red_epas blue_epas Vr Vb Hne) as [row ->].
    now exists row.
Qed.

(** Red 50, 40, 30 beats blue 20, 25 by 80 to 60: a row with [winner] 1; the
    same match at 70 to 70 yields nothing. *)
Lemma winner_label_witness :
  (exists row,
     fst (Pipeline.build_feature_vector two_blue (qm_match 80 60) casj fresh_run)
       = Returned (Some row) /\
     dict_get row "winner" = Some 1%Q) /\
  (forall row,
     fst (Pipeline.build_feature_vector two_blue (qm_match 70 70) casj fresh_run)
       <> Returned (Some row)).
Proof.
  split.
  - destruct (winner_label two_blue (qm_match 80 60) casj fresh_run) as (Hlab & _ & Hrow).
    destruct (Hrow
                [Some (rated 50); Some (rated 40); Some (rated 30)]
                [Some (rated 20); Some (rated 25); None]
                (snd (Pipeline.fetch_all two_blue [1; 2; 3]%Z "2024casj" fresh_run))
                (snd (Pipeline.fetch_all two_blue [4; 5; 6]%Z "2024casj"
                        (snd (Pipeline.fetch_all two_blue [1; 2; 3]%Z "2024casj" fresh_run)))))
      as [row Hr];
      [ vm_compute; lia | vm_compute; lia
      | apply pair_from_fst; vm_compute; reflexivity
      | apply pair_from_fst; vm_compute; reflexivity
      | vm_compute; lia | vm_compute; lia | discriminate | ].
    exists row. split; [exact Hr|].
    destruct (Hlab row Hr) as [[_ Hw]|[Hlt _]]; [exact Hw | vm_compute in Hlt; discriminate].
  - destruct (winner_label two_blue (qm_match 70 70) casj fresh_run) as (_ & Htie & _).
    exact (Htie eq_refl).
Defined.

(** ** Column order *)

(** Reading a dict by key does not depend on the order in which its entries
    were written. *)
Lemma dict_get_permutation {V} (d d' : odict V) k :
  Permutation d d' -> List.NoDup (dict_keys d) -> dict_get d' k = dict_get d k.
Proof.
  induction 1 as [|[k1 v1] l l' Hp IH|[k1 v1] [k2 v2] l|l l' l'' H1 IH1 H2 IH2]; intros Hnd.
  - reflexivity.
  - cbn [dict_get]. destruct (String.eqb k1 k); [reflexivity|].
    apply IH. now inversion Hnd.
  - cbn [dict_get].
    destruct (String.eqb_spec k2 k) as [->|N2], (String.eqb_spec k1 k) as [->|N1];
      try reflexivity.
    inversion Hnd as [|? ? Hnot _]. cbn in Hnot. tauto.
  - rewrite IH2, IH1; [reflexivity | exact Hnd |].
    eapply Permutation_NoDup; [|exact Hnd].
    unfold dict_keys. now apply Permutation_map.
Qed.

Lemma dict_pick_permutation {V} keys (d d' : odict V) :
  Permutation d d' -> List.NoDup (dict_keys d) ->
  dict_pick d' keys = dict_pick d keys.
Proof.
  intros Hp Hnd. induction keys as [|k keys IH]; [reflexivity|].
  cbn [dict_pick]. rewrite (dict_get_permutation _ _ k Hp Hnd), IH.
  reflexivity.
Qed.

Lemma FEATURE_COLS_NoDup : List.NoDup Train.FEATURE_COLS.
Proof.
  unfold Train.FEATURE_COLS.
  repeat (constructor; [cbn [In]; intros H; repeat (destruct H as [H|H]; [discriminate|]); exact H|]).
  constructor.
Qed.

(** The feature dict of the serving path, when it is built, is written in the
    canonical order. *)
Lemma features_of_keys reds blues cl wk features :
  Server.features_of reds blues cl wk = Returned features ->
  dict_keys features = Train.FEATURE_COLS.
Proof.
  unfold Server.features_of.
  repeat match goal with
         | |- context [obind ?o _] =>
             lazymatch o with
             | Returned _ => fail
             | _ => destruct o; cbn [obind]; [discriminate|]
             end
         end.
  intros [= <-]. reflexivity.
Qed.

(** C7.  Column order.  Batch: every row that [build_feature_vector] emits
    has the sixteen canonical feature names as its first sixteen keys, in the
    canonical order, followed by the label and the scores; selecting
    [FEATURE_COLS] from it, as training does, gives those sixteen values in
    that order.  Serving: the vector of [build_features] holds, position by
    position, the feature named by the loaded column list; it is the same
    vector whatever the order in which the feature dict was written; and with
    the column list that training persists ([FEATURE_COLS]) it has the
    sixteen canonical fields in the canonical order. *)
Theorem canonical_column_order :
  (forall net m ev (w : Pipeline.world) row,
     fst (Pipeline.build_feature_vector net m ev w) = Returned (Some row) ->
     dict_keys row =
       (Train.FEATURE_COLS ++ ["winner"; "red_score"; "blue_score"; "score_margin"])%list /\
     take 16 (dict_keys row) = Train.FEATURE_COLS /\
     Train.select_columns Train.FEATURE_COLS row = Returned (map snd (take 16 row))) /\
  (forall cols red_epas blue_epas cl wk X,
     Server.feature_vector cols red_epas blue_epas cl wk = Returned (Some X) ->
     exists features,
       Server.features_of (valid_of red_epas) (valid_of blue_epas) cl wk
         = Returned features /\
       dict_keys features = Train.FEATURE_COLS /\
       dict_pick features cols = Returned X /\
       (forall features', Permutation features features' ->
          dict_pick features' cols = Returned X) /\
       (cols = Train.FEATURE_COLS -> X = map snd features /\ length X = 16%nat)).
Proof.
  split.
  - intros net m ev w row Hrow.
    destruct (build_feature_vector_row _ _ _ _ _ Hrow) as (re & be & w1 & w2 & _ & _ & Hfr).
    destruct (feature_row_shape _ _ _ _ _ Hfr)
      as (f1 & f2 & f3 & f4 & f5 & f6 & f7 & f8 & f9 & f10 & f11 & f12 & f13 & f14
          & f15 & f16 & win & -> & _).
    repeat split.
  - intros cols red_epas blue_epas cl wk X. unfold Server.feature_vector.
    destruct (valid_of red_epas) as [|r rs]; [discriminate|].
    destruct (valid_of blue_epas) as [|b bs]; [discriminate|].
    destruct (Server.features_of _ _ cl wk) as [|features] eqn:Hf; [discriminate|].
    cbn [obind].
    destruct (dict_pick features cols) as [|X'] eqn:Hsel; [discriminate|].
    cbn [obind]. intros [= <-]. exists features.
    pose proof (features_of_keys _ _ _ _ _ Hf) as Hkeys.
    split; [reflexivity|]. split; [exact Hkeys|]. split; [exact Hsel|]. split.
    + intros features' Hp. rewrite <- Hsel. apply dict_pick_permutation; [exact Hp|].
      rewrite Hkeys. apply FEATURE_COLS_NoDup.
    + intros ->. unfold dict_keys in Hkeys.
      do 16 (destruct features as [|[? ?] features]; [discriminate Hkeys|]).
      destruct features; [|discriminate Hkeys].
      cbn [map fst] in Hkeys. unfold Train.FEATURE_COLS in Hkeys.
      injection Hkeys as -> -> -> -> -> -> -> -> -> -> -> -> -> -> -> ->.
      vm_compute in Hsel. injection Hsel as <-. split; reflexivity.
Qed.

(** The row of the 80 to 60 match and the vector of the same six teams. *)
Lemma canonical_column_order_witness :
  (exists row,
     fst (Pipeline.build_feature_vector two_blue (qm_match 80 60) casj fresh_run)
       = Returned (Some row) /\
     take 16 (dict_keys row) = Train.FEATURE_COLS) /\
  (exists X,
     Server.feature_vector Train.FEATURE_COLS
       [Some [("total", PInt 50); ("auto", PInt 0); ("teleop", PInt 0); ("endgame", PInt 0)]]
       [Some [("total", PInt 20); ("auto", PInt 0); ("teleop", PInt 0); ("endgame", PInt 0)]]
       0 2 = Returned (Some X) /\
     length X = 16%nat).
Proof.
  destruct canonical_column_order as [Hbatch Hserve]. split.
  - assert (exists row,
      fst (Pipeline.build_feature_vector two_blue (qm_match 80 60) casj fresh_run)
        = Returned (Some row)) as [row Hrow] by (eexists; vm_compute; reflexivity).
    exists row. split; [exact Hrow|]. exact (proj1 (proj2 (Hbatch _ _ _ _ _ Hrow))).
  - assert (exists X,
      Server.feature_vector Train.FEATURE_COLS
        [Some [("total", PInt 50); ("auto", PInt 0); ("teleop", PInt 0); ("endgame", PInt 0)]]
        [Some [("total", PInt 20); ("auto", PInt 0); ("teleop", PInt 0); ("endgame", PInt 0)]]
        0 2 = Returned (Some X)) as [X HX] by (eexists; vm_compute; reflexivity).
    exists X. split; [exact HX|].
    destruct (Hserve _ _ _ _ _ _ HX) as (features & _ & _ & _ & _ & Hcanon).
    exact (proj2 (Hcanon eq_refl)).
Defined.

(** ** The rating caches *)

Section BatchCache.

Variable net : nat -> string -> response.

Lemma get_team_epa_hit team ev (w : Pipeline.world) v :
  Pipeline.epa_cache w !! cache_key team ev = Some v ->
  Pipeline.get_team_epa net team ev w = (Returned v, w).
Proof. intros H. unfold Pipeline.get_team_epa. now rewrite H. Qed.

Lemma get_team_epa_resolves team ev (w w1 : Pipeline.world) v :
  Pipeline.get_team_epa net team ev w = (Returned v, w1) ->
  Pipeline.epa_cache w1 !! cache_key team ev = Some v.
Proof.
  unfold Pipeline.get_team_epa.
  destruct (Pipeline.epa_cache w !! cache_key team ev) as [c|] eqn:Hc.
  - intros [= <- <-]. exact Hc.
  - destruct (Pipeline.rating_of_payload _) as [e|r]; intros [= <- <-].
    cbn [Pipeline.epa_cache]. apply lookup_insert_eq.
Qed.

Lemma get_team_epa_keeps team ev (w : Pipeline.world) k v :
  Pipeline.epa_cache w !! k = Some v ->
  Pipeline.epa_cache (snd (Pipeline.get_team_epa net team ev w)) !! k = Some v.
Proof.
  intros Hk. unfold Pipeline.get_team_epa.
  destruct (Pipeline.epa_cache w !! cache_key team ev) as [c|] eqn:Hc; [exact Hk|].
  destruct (Pipeline.rating_of_payload _) as [e|r]; cbn [snd Pipeline.epa_cache];
    [exact Hk|].
  rewrite lookup_insert_ne; [exact Hk|]. intros Heq. rewrite Heq in Hc. congruence.
Qed.

Lemma lookups_keep ops (w : Pipeline.world) k v :
  Pipeline.epa_cache w !! k = Some v ->
  Pipeline.epa_cache (lookups net ops w) !! k = Some v.
Proof.
  revert w. induction ops as [|[team ev] ops IH]; intros w Hk; [exact Hk|].
  cbn [lookups]. apply IH. now apply get_team_epa_keeps.
Qed.

End BatchCache.

(** C6.  At most one fetch per key and window.  Batch: once a lookup of
    (team, event) has returned [v], be it a rating or absent, the same lookup
    after any further lookups of the run returns [v] again and leaves the
    world as it is: no outbound request, no expiry.  Serving: after a lookup
    that returned [v] the cache holds [v] with a time stamp [ts], which is the
    clock reading of that lookup if it made a request; the next lookup of the
    key returns [v] with no request while the clock reads less than [ts] plus
    600 seconds, and makes one request once it reads [ts] plus 600 or more. *)
Theorem rating_cache_fetches_once :
  (forall net team ev (w w1 : Pipeline.world) v ops,
     Pipeline.get_team_epa net team ev w = (Returned v, w1) ->
     Pipeline.get_team_epa net team ev (lookups net ops w1)
       = (Returned v, lookups net ops w1)) /\
  (forall net clock team ev (w w1 : Server.world) v,
     Server.get_team_epa_cached net clock team ev w = (Returned v, w1) ->
     exists ts,
       Server._epa_cache w1 !! cache_key team ev = Some (v, ts) /\
       (Server.calls w1 <> Server.calls w -> ts = clock (Server.ticks w)) /\
       ((clock (Server.ticks w1) - ts < Server.EPA_CACHE_TTL)%Q ->
        Server.get_team_epa_cached net clock team ev w1 = (Returned v, clock_read w1)) /\
       ((Server.EPA_CACHE_TTL <= clock (Server.ticks w1) - ts)%Q ->
        Server.calls (snd (Server.get_team_epa_cached net clock team ev w1))
          = (Server.calls w1 ++ [STATBOTICS_BASE +:+ team_event_endpoint team ev])%list)).
Proof.
  split.
  - intros net team ev w w1 v ops H.
    apply get_team_epa_hit, lookups_keep. eapply get_team_epa_resolves, H.
  - intros net clock team ev w w1 v H.
    assert (Hts : exists ts,
               Server._epa_cache w1 !! cache_key team ev = Some (v, ts) /\
               (Server.calls w1 <> Server.calls w -> ts = clock (Server.ticks w))).
    { revert H. unfold Server.get_team_epa_cached. cbn [Server._epa_cache Server.calls Server.ticks].
      destruct (Server._epa_cache w !! cache_key team ev) as [[data ts]|] eqn:Hc.
      - destruct (Qlt_le_dec _ _).
        + intros [= <- <-]. exists ts. cbn [Server._epa_cache Server.calls]. split; [exact Hc | congruence].
        + destruct (Server.try_fetch _) as [e|r]; intros [= <- <-].
          exists (clock (Server.ticks w)). cbn [Server._epa_cache]. split; [apply lookup_insert_eq | auto].
      - destruct (Server.try_fetch _) as [e|r]; intros [= <- <-].
        exists (clock (Server.ticks w)). cbn [Server._epa_cache]. split; [apply lookup_insert_eq | auto]. }
    destruct Hts as (ts & Hc & Hfresh). exists ts. split; [exact Hc|]. split; [exact Hfresh|].
    unfold Server.get_team_epa_cached. rewrite Hc.
    cbn [Server._epa_cache Server.calls Server.ticks]. split; intros Ht.
    + destruct (Qlt_le_dec _ _) as [_|Hge]; [reflexivity|].
      exfalso. exact (Qlt_not_le _ _ Ht Hge).
    + destruct (Qlt_le_dec _ _) as [Hlt|_]; [exfalso; exact (Qlt_not_le _ _ Hlt Ht)|].
      destruct (Server.try_fetch _); reflexivity.
Qed.

(** Team 2 has no rating at the event.  Batch: the absent answer is kept
    through later lookups.  Serving: it is kept at 599 seconds and fetched
    again at 600. *)
Lemma rating_cache_fetches_once_witness :
  (let w1 := snd (Pipeline.get_team_epa lone_red 2 "2024casj" fresh_run) in
   let w2 := lookups lone_red [(1%Z, "2024casj"); (4%Z, "2024casj")] w1 in
   Pipeline.get_team_epa lone_red 2 "2024casj" w2 = (Returned None, w2)) /\
  (let s1 := snd (Server.get_team_epa_cached lone_red (later 599) 2 "2024casj" fresh_server) in
   Server.get_team_epa_cached lone_red (later 599) 2 "2024casj" s1
     = (Returned None, clock_read s1)) /\
  (let s1 := snd (Server.get_team_epa_cached lone_red (later 600) 2 "2024casj" fresh_server) in
   Server.calls (snd (Server.get_team_epa_cached lone_red (later 600) 2 "2024casj" s1))
     = [url_of 2 "2024casj"; url_of 2 "2024casj"]).
Proof.
  destruct rating_cache_fetches_once as [Hbatch Hserve]. split; [|split].
  - cbv zeta. apply (Hbatch lone_red 2%Z "2024casj" fresh_run).
    apply pair_from_fst. vm_compute. reflexivity.
  - cbv zeta.
    destruct (Hserve lone_red (later 599) 2%Z "2024casj" fresh_server
                (snd (Server.get_team_epa_cached lone_red (later 599) 2 "2024casj" fresh_server))
                None)
      as (ts & _ & Hts & Hhit & _);
      [apply pair_from_fst; vm_compute; reflexivity|].
    apply Hhit. rewrite Hts by (vm_compute; discriminate). vm_compute. reflexivity.
  - cbv zeta.
    destruct (Hserve lone_red (later 600) 2%Z "2024casj" fresh_server
                (snd (Server.get_team_epa_cached lone_red (later 600) 2 "2024casj" fresh_server))
                None)
      as (ts & _ & Hts & _ & Hexp);
      [apply pair_from_fst; vm_compute; reflexivity|].
    rewrite Hexp; [vm_compute; reflexivity|].
    rewrite Hts by (vm_compute; discriminate). vm_compute. discriminate.
Defined.

(** ** The predict endpoint *)

Section Rounding.

Local Open Scope Q_scope.

Lemma py_round_floor x : (Qfloor x <= py_round x)%Z.
Proof.
  unfold py_round. destruct (Qcompare _ _); [destruct (Z.even _)| |]; lia.
Qed.

Lemma py_round_ge k x : inject_Z k <= x -> (k <= py_round x)%Z.
Proof.
  intros H. apply Qfloor_resp_le in H. rewrite Qfloor_Z in H.
  pose proof (py_round_floor x). lia.
Qed.

Lemma py_round3_half q : 1 # 2 <= q -> 1 # 2 <= py_round3 q.
Proof.
  intros H. unfold py_round3.
  assert (Hk : (500 <= py_round (q * 1000))%Z).
  { apply py_round_ge. apply Qle_trans with ((1 # 2) * 1000).
    - unfold Qle. cbn. lia.
    - apply Qmult_le_compat_r; [exact H | discriminate]. }
  set (k := py_round (q * 1000)) in *. clearbody k.
  unfold Qle, Qdiv, Qmult, Qinv, inject_Z. cbn. lia.
Qed.

Lemma py_round3_thousandths q : exists k : Z, py_round3 q = inject_Z k / 1000.
Proof. exists (py_round (q * 1000)). reflexivity. Qed.

End Rounding.

(** The answer of [respond]: who wins, and with which probability. *)
Lemma respond_winner scaler clf rr br X :
  let p := clf (scaler X) in
  let r := Server.respond scaler clf rr br X in
  (Server.winner r = "red" /\ (1 # 2 < p)%Q /\ Server.win_probability r = py_round3 p \/
   Server.winner r = "blue" /\ (p <= 1 # 2)%Q /\
     Server.win_probability r = py_round3 (1 - p)) /\
  (1 # 2 <= Server.win_probability r)%Q.
Proof.
  intros p r. subst r. unfold Server.respond. fold p.
  cbn [Server.winner Server.win_probability].
  destruct (Qlt_le_dec (1 # 2) p) as [Hlt|Hle]; cbn [String.eqb Ascii.eqb Bool.eqb].
  - split; [left; auto|]. apply py_round3_half. now apply Qlt_le_weak.
  - split; [right; auto|]. apply py_round3_half.
    apply (Qplus_le_l _ _ (p - (1 # 2))). ring_simplify. exact Hle.
Qed.

(** What [predict] keeps of its contract, in the order in which the handler
    checks: 503 exactly when the models are not loaded; with models loaded,
    400 exactly when a team list does not have 3 entries; with models loaded
    and two lists of 3, 422 exactly when [build_features] returns nothing;
    and when it returns a vector the handler answers with a response whose
    [red_score], [blue_score] and [margin] are integers that are not negative
    and whose [win_probability] is a whole number of thousandths. *)
Lemma predict_statuses net clock loaded cols scaler clf rr br req (w : Server.world) :
  let out := fst (Server.predict net clock loaded cols scaler clf rr br req w) in
  let built :=
    fst (Server.build_features net clock cols (Server.red_teams req) (Server.blue_teams req)
           (Server.event_key req) (Server.comp_level req) (Server.event_week req) w) in
  let sized := length (Server.red_teams req) = 3%nat /\ length (Server.blue_teams req) = 3%nat in
  (out = Server.HTTPException 503 <-> loaded = false) /\
  (loaded = true -> (out = Server.HTTPException 400 <-> ~ sized)) /\
  (loaded = true -> sized -> (out = Server.HTTPException 422 <-> built = Returned None)) /\
  (forall X, loaded = true -> sized -> built = Returned (Some X) ->
     exists r, out = Server.Reply r /\
       (0 <= Server.red_score r)%Z /\ (0 <= Server.blue_score r)%Z /\
       (0 <= Server.margin r)%Z /\
       exists k : Z, Server.win_probability r = (inject_Z k / 1000)%Q).
Proof.
  intros out built sized. subst out built sized. unfold Server.predict.
  destruct loaded; cbn [negb].
  2: { repeat split; try reflexivity; try discriminate; intros; discriminate. }
  destruct (Nat.eqb_spec (length (Server.red_teams req)) 3) as [Lr|Lr];
    destruct (Nat.eqb_spec (length (Server.blue_teams req)) 3) as [Lb|Lb];
    cbn [negb orb fst].
  2-4: (repeat split; try discriminate; try tauto; intros; tauto).
  destruct (Server.build_features _ _ _ _ _ _ _ _ w) as [[e|[X|]] w1]; cbn [fst].
  - repeat split; try discriminate; try tauto; intros; discriminate.
  - repeat split; try discriminate; try tauto.
    intros X' _ _ [= <-]. eexists. split; [reflexivity|].
    unfold Server.respond.
    cbn [Server.red_score Server.blue_score Server.margin Server.win_probability].
    repeat split; try lia. apply py_round3_thousandths.
  - repeat split; try discriminate; try tauto; intros; discriminate.
Qed.

(** An exception that escapes [build_features] is handled by nothing: with
    models loaded and two lists of 3, [predict] ends in that exception. *)
Lemma predict_unhandled net clock cols scaler clf rr br req (w : Server.world) e :
  length (Server.red_teams req) = 3%nat -> length (Server.blue_teams req) = 3%nat ->
  fst (Server.build_features net clock cols (Server.red_teams req) (Server.blue_teams req)
         (Server.event_key req) (Server.comp_level req) (Server.event_week req) w)
    = Raised e ->
  fst (Server.predict net clock true cols scaler clf rr br req w) = Server.Unhandled e.
Proof.
  intros Lr Lb. unfold Server.predict. rewrite Lr, Lb. cbn [negb orb Nat.eqb].
  destruct (Server.build_features _ _ _ _ _ _ _ _ w) as [[e'|[X|]] w1]; cbn [fst];
    try discriminate.
  now intros [= ->].
Qed.

(** C9, at the failing input.  Models loaded, two lists of three teams, and
    a rating service that answers 200 with a breakdown whose point categories
    are bare numbers: [predict] ends with none of the three statuses and with
    no response, the [AttributeError] of the first rating lookup escapes the
    handler.  The same request is answered with a response when the
    categories are objects with a [mean]. *)
Theorem predict_lets_lookup_error_escape :
  fst (Server.predict (always (PDict numeric_breakdown_payload)) noon true
         Train.FEATURE_COLS no_scaling (constant (3 # 4)) (constant (161 # 2))
         (constant (-3)) casj_request fresh_server)
    = Server.Unhandled AttributeError /\
  (forall status,
     fst (Server.predict (always (PDict numeric_breakdown_payload)) noon true
            Train.FEATURE_COLS no_scaling (constant (3 # 4)) (constant (161 # 2))
            (constant (-3)) casj_request fresh_server)
       <> Server.HTTPException status) /\
  (forall r,
     fst (Server.predict (always (PDict numeric_breakdown_payload)) noon true
            Train.FEATURE_COLS no_scaling (constant (3 # 4)) (constant (161 # 2))
            (constant (-3)) casj_request fresh_server)
       <> Server.Reply r) /\
  exists r,
    fst (Server.predict two_blue noon true Train.FEATURE_COLS no_scaling
           (constant (3 # 4)) (constant (161 # 2)) (constant (-3))
           casj_request fresh_server) = Server.Reply r.
Proof.
  assert (fst (Server.predict (always (PDict numeric_breakdown_payload)) noon true
                 Train.FEATURE_COLS no_scaling (constant (3 # 4)) (constant (161 # 2))
                 (constant (-3)) casj_request fresh_server)
          = Server.Unhandled AttributeError) as H by (vm_compute; reflexivity).
  rewrite H. repeat split; try discriminate.
  eexists. vm_compute. reflexivity.
Qed.

(** C10.  Whenever [predict] answers with a response, [win_probability] is
    the probability of the reported winner, rounded to thousandths: the
    classifier's red-win probability [p] when the winner is red (which is
    when [p] exceeds one half), and [1 - p] when the winner is blue.  It is
    therefore never below one half. *)
Theorem win_probability_of_winner net clock loaded cols scaler clf rr br req
    (w : Server.world) r :
  fst (Server.predict net clock loaded cols scaler clf rr br req w) = Server.Reply r ->
  exists X,
    fst (Server.build_features net clock cols (Server.red_teams req) (Server.blue_teams req)
           (Server.event_key req) (Server.comp_level req) (Server.event_week req) w)
      = Returned (Some X) /\
    (Server.winner r = "red" /\ (1 # 2 < clf (scaler X))%Q /\
       Server.win_probability r = py_round3 (clf (scaler X)) \/
     Server.winner r = "blue" /\ (clf (scaler X) <= 1 # 2)%Q /\
       Server.win_probability r = py_round3 (1 - clf (scaler X))) /\
    (1 # 2 <= Server.win_probability r)%Q.
Proof.
  unfold Server.predict.
  destruct (negb loaded); [discriminate|].
  destruct (_ || _); [discriminate|].
  destruct (Server.build_features _ _ _ _ _ _ _ _ w) as [[e|[X|]] w1]; cbn [fst];
    try discriminate.
  intros [= <-]. exists X. split; [reflexivity|]. apply respond_winner.
Qed.

(** The four ways a request can end: models missing, a short team list, no
    rating at all for an alliance, and a scored match. *)
Lemma predict_statuses_witness :
  fst (Server.predict two_blue noon false [] no_scaling (constant 0) (constant 0) (constant 0)
         casj_request fresh_server) = Server.HTTPException 503 /\
  fst (Server.predict two_blue noon true Train.FEATURE_COLS no_scaling
         (constant (3 # 4)) (constant (161 # 2)) (constant (-3))
         {| Server.red_teams := [1; 2]%Z; Server.blue_teams := [4; 5; 6]%Z;
            Server.event_key := "2024casj"; Server.comp_level := 0; Server.event_week := 2 |}
         fresh_server) = Server.HTTPException 400 /\
  fst (Server.predict (service []) noon true Train.FEATURE_COLS no_scaling
         (constant (3 # 4)) (constant (161 # 2)) (constant (-3))
         casj_request fresh_server) = Server.HTTPException 422 /\
  exists r,
    fst (Server.predict two_blue noon true Train.FEATURE_COLS no_scaling
           (constant (3 # 4)) (constant (161 # 2)) (constant (-3))
           casj_request fresh_server) = Server.Reply r /\
    (0 <= Server.red_score r)%Z /\ (0 <= Server.blue_score r)%Z /\ (0 <= Server.margin r)%Z.
Proof.
  split; [|split; [|split]].
  - apply (proj1 (predict_statuses two_blue noon false [] no_scaling (constant 0) (constant 0)
                    (constant 0) casj_request fresh_server)).
    reflexivity.
  - destruct (predict_statuses two_blue noon true Train.FEATURE_COLS no_scaling
                (constant (3 # 4)) (constant (161 # 2)) (constant (-3))
                {| Server.red_teams := [1; 2]%Z; Server.blue_teams := [4; 5; 6]%Z;
                   Server.event_key := "2024casj"; Server.comp_level := 0;
                   Server.event_week := 2 |} fresh_server) as (_ & H400 & _).
    apply (H400 eq_refl). cbn. intros [H _]. discriminate H.
  - destruct (predict_statuses (service []) noon true Train.FEATURE_COLS no_scaling
                (constant (3 # 4)) (constant (161 # 2)) (constant (-3))
                casj_request fresh_server) as (_ & _ & H422 & _).
    apply (H422 eq_refl (conj eq_refl eq_refl)). vm_compute. reflexivity.
  - destruct (predict_statuses two_blue noon true Train.FEATURE_COLS no_scaling
                (constant (3 # 4)) (constant (161 # 2)) (constant (-3))
                casj_request fresh_server) as (_ & _ & _ & Hok).
    assert (exists X,
      fst (Server.build_features two_blue noon Train.FEATURE_COLS
             (Server.red_teams casj_request) (Server.blue_teams casj_request)
             (Server.event_key casj_request) (Server.comp_level casj_request)
             (Server.event_week casj_request) fresh_server) = Returned (Some X))
      as [X HX] by (eexists; vm_compute; reflexivity).
    destruct (Hok X eq_refl (conj eq_refl eq_refl) HX) as (r & Hr & H1 & H2 & H3 & _).
    exists r. auto.
Defined.

(** A classifier that gives red 0.3: blue is reported, with 0.7. *)
Lemma win_probability_of_winner_witness :
  exists r,
    fst (Server.predict two_blue noon true Train.FEATURE_COLS no_scaling
           (constant (3 # 10)) (constant 60) (constant 75) casj_request fresh_server)
      = Server.Reply r /\
    Server.winner r = "blue" /\
    (Server.win_probability r == 7 # 10)%Q /\
    (1 # 2 <= Server.win_probability r)%Q.
Proof.
  assert (exists r,
    fst (Server.predict two_blue noon true Train.FEATURE_COLS no_scaling
           (constant (3 # 10)) (constant 60) (constant 75) casj_request fresh_server)
      = Server.Reply r) as [r Hr] by (eexists; vm_compute; reflexivity).
  exists r. split; [exact Hr|].
  destruct (win_probability_of_winner _ _ _ _ _ _ _ _ _ _ _ Hr)
    as (X & _ & [(_ & Hlt & _)|(Hw & _ & Hp)] & Hhalf).
  - exfalso. vm_compute in Hlt. discriminate Hlt.
  - repeat split; [exact Hw | rewrite Hp; vm_compute; reflexivity | exact Hhalf].
Defined.

(** ** An end-to-end example *)

(** Red rated 50, 40, 30 and blue rated 20, 25 with one team unrated: the
    row has red sum 120 and mean 40, blue sum 45 and mean 22.5, and the
    differences 75 and 17.5. *)
Lemma end_to_end_example :
  exists row,
    fst (Pipeline.build_feature_vector two_blue (qm_match 80 60) casj fresh_run)
      = Returned (Some row) /\
    (Pipeline.feat row "red_sum_epa" == 120)%Q /\
    (Pipeline.feat row "red_avg_epa" == 40)%Q /\
    (Pipeline.feat row "blue_sum_epa" == 45)%Q /\
    (Pipeline.feat row "blue_avg_epa" == 45 # 2)%Q /\
    (Pipeline.feat row "epa_diff" == 75)%Q /\
    (Pipeline.feat row "avg_epa_diff" == 35 # 2)%Q /\
    Pipeline.feat row "score_margin" = 20%Q.
Proof.
  eexists. split; [vm_compute; reflexivity|]. repeat split; vm_compute; reflexivity.
Qed.

(** The six requests of that match go out once: building the row a second
    time in the world it left makes no request. *)
Lemma second_build_is_silent :
  let w1 := snd (Pipeline.build_feature_vector two_blue (qm_match 80 60) casj fresh_run) in
  length (Pipeline.calls w1) = 6%nat /\
  Pipeline.calls (snd (Pipeline.build_feature_vector two_blue (qm_match 80 60) casj w1))
    = Pipeline.calls w1.
Proof. split; vm_compute; reflexivity. Qed.

(** * More of the code *)

(** ** The same ratings give the same features *)

Lemma valid_of_map {A B} (f : A -> B) (l : list (option A)) :
  valid_of (map (option_map f) l) = map f (valid_of l).
Proof.
  unfold valid_of. induction l as [|[a|] l IH]; cbn; [reflexivity | now rewrite IH | exact IH].
Qed.

Lemma column_as_record vs :
  Server.column (map as_record vs) "total" = Returned (map total vs) /\
  Server.column (map as_record vs) "auto" = Returned (map auto vs) /\
  Server.column (map as_record vs) "teleop" = Returned (map teleop vs) /\
  Server.column (map as_record vs) "endgame" = Returned (map endgame vs).
Proof.
  induction vs as [|r vs (IH1 & IH2 & IH3 & IH4)]; [repeat split|].
  cbn [map Server.column]. rewrite IH1, IH2, IH3, IH4. repeat split.
Qed.

(** The row that [feature_row] emits, value by value. *)
Lemma feature_row_values m ev red_epas blue_epas row :
  Pipeline.feature_row m ev red_epas blue_epas = Some row ->
  let rv := valid_of red_epas in
  let bv := valid_of blue_epas in
  let red_score := Pipeline.score (Pipeline.red m) in
  let blue_score := Pipeline.score (Pipeline.blue m) in
  rv <> [] /\ bv <> [] /\ red_score <> blue_score /\
  row =
    [("red_avg_epa", np_mean (map total rv)); ("red_avg_auto", np_mean (map auto rv));
     ("red_avg_teleop", np_mean (map teleop rv));
     ("red_avg_endgame", np_mean (map endgame rv));
     ("red_sum_epa", py_sum (map total rv)); ("red_max_epa", py_max (map total rv));
     ("blue_avg_epa", np_mean (map total bv)); ("blue_avg_auto", np_mean (map auto bv));
     ("blue_avg_teleop", np_mean (map teleop bv));
     ("blue_avg_endgame", np_mean (map endgame bv));
     ("blue_sum_epa", py_sum (map total bv)); ("blue_max_epa", py_max (map total bv));
     ("comp_level",
      inject_Z (Pipeline.comp_encoded
                  (match Pipeline.comp_level m with Some l => l | None => "qm" end)));
     ("event_week", inject_Z (match Pipeline.week ev with Some wk => wk | None => 0%Z end));
     ("epa_diff", (py_sum (map total rv) - py_sum (map total bv))%Q);
     ("avg_epa_diff", (np_mean (map total rv) - np_mean (map total bv))%Q);
     ("winner", inject_Z (if (blue_score <? red_score)%Z then 1 else 0));
     ("red_score", inject_Z red_score);
     ("blue_score", inject_Z blue_score);
     ("score_margin", inject_Z (red_score - blue_score))].
Proof.
  intros Hrow rv bv red_score blue_score. revert Hrow.
  unfold Pipeline.feature_row, Pipeline.alliance_features. fold rv bv red_score blue_score.
  destruct (Nat.ltb_spec (length rv) 2) as [|Lr]; [discriminate|].
  destruct (Nat.ltb_spec (length bv) 2) as [|Lb]; [discriminate|].
  cbn [orb].
  destruct rv as [|r1 rs]; [cbn in Lr; lia|].
  destruct bv as [|b1 bs]; [cbn in Lb; lia|].
  destruct (Z.ltb_spec blue_score red_score) as [Hr|Hr].
  - intros [= <-]. repeat split; try discriminate. lia.
  - destruct (Z.ltb_spec red_score blue_score) as [Hb|Hb]; [|discriminate].
    intros [= <-]. repeat split; try discriminate. lia.
Qed.

(** X1.  Train/serve parity of the feature construction.  Whenever the batch
    path emits a row from a list of ratings, the serving path, given the same
    ratings as records, the encoded competition level and the event week,
    returns exactly the sixteen feature values that training selects from
    that row. *)
Theorem same_ratings_same_features m ev red_epas blue_epas row :
  Pipeline.feature_row m ev red_epas blue_epas = Some row ->
  exists X,
    Train.select_columns Train.FEATURE_COLS row = Returned X /\
    Server.feature_vector Train.FEATURE_COLS
      (map (option_map as_record) red_epas) (map (option_map as_record) blue_epas)
      (Pipeline.comp_encoded (match Pipeline.comp_level m with Some l => l | None => "qm" end))
      (match Pipeline.week ev with Some wk => wk | None => 0%Z end)
    = Returned (Some X).
Proof.
  intros Hrow.
  destruct (feature_row_values _ _ _ _ _ Hrow) as (Hr & Hb & _ & ->).
  eexists. split; [reflexivity|].
  unfold Server.feature_vector. rewrite !valid_of_map.
  destruct (valid_of red_epas) as [|r1 rs] eqn:Er; [now destruct Hr|].
  destruct (valid_of blue_epas) as [|b1 bs] eqn:Eb; [now destruct Hb|].
  unfold Server.features_of, Server.avg_or_zero, Server.sum_or_zero, Server.max_or_zero.
  destruct (column_as_record (r1 :: rs)) as (R1 & R2 & R3 & R4).
  destruct (column_as_record (b1 :: bs)) as (B1 & B2 & B3 & B4).
  cbn [map] in *. rewrite R1, R2, R3, R4, B1, B2, B3, B4.
  reflexivity.
Qed.

Lemma same_ratings_same_features_witness :
  exists X,
    Server.feature_vector Train.FEATURE_COLS
      (map (option_map as_record) [Some (rated 50); Some (rated 40); Some (rated 30)])
      (map (option_map as_record) [Some (rated 20); Some (rated 25); None])
      0 2 = Returned (Some X) /\
    length X = 16%nat.
Proof.
  assert (exists row,
    Pipeline.feature_row (qm_match 80 60) casj
      [Some (rated 50); Some (rated 40); Some (rated 30)]
      [Some (rated 20); Some (rated 25); None] = Some row)
    as [row Hrow] by (eexists; vm_compute; reflexivity).
  destruct (same_ratings_same_features _ _ _ _ _ Hrow) as (X & Hsel & HX).
  exists X. split; [exact HX|].
  destruct (feature_row_values _ _ _ _ _ Hrow) as (_ & _ & _ & ->).
  injection Hsel as <-. reflexivity.
Defined.

(** ** Invariants of a training row and of a serving vector *)

(** X2.  Every row that the batch path emits is consistent with itself: the
    two difference features are the differences of the sum and mean features
    stored beside them, the margin is red score minus blue score and is never
    0, and the label is 1 exactly when the margin is positive and 0 exactly
    when it is negative. *)
Theorem training_row_consistent net m ev (w : Pipeline.world) row :
  fst (Pipeline.build_feature_vector net m ev w) = Returned (Some row) ->
  let f := Pipeline.feat row in
  f "epa_diff" = (f "red_sum_epa" - f "blue_sum_epa")%Q /\
  f "avg_epa_diff" = (f "red_avg_epa" - f "blue_avg_epa")%Q /\
  f "score_margin" = (f "red_score" - f "blue_score")%Q /\
  ~ (f "score_margin" == 0)%Q /\
  (f "winner" = 1%Q <-> (0 < f "score_margin")%Q) /\
  (f "winner" = 0%Q <-> (f "score_margin" < 0)%Q).
Proof.
  intros Hrow f. subst f.
  destruct (build_feature_vector_row _ _ _ _ _ Hrow) as (re & be & w1 & w2 & _ & _ & Hfr).
  destruct (feature_row_values _ _ _ _ _ Hfr) as (Hr & Hb & Hne & ->).
  unfold Pipeline.feat.
  cbn [dict_get String.eqb Ascii.eqb Bool.eqb].
  set (rs := Pipeline.score (Pipeline.red m)) in *.
  set (bs := Pipeline.score (Pipeline.blue m)) in *.
  assert (Hmargin : forall z : Z, (0 < inject_Z z)%Q <-> (0 < z)%Z).
  { intros z. unfold Qlt, inject_Z. cbn. lia. }
  assert (Hmargin' : forall z : Z, (inject_Z z < 0)%Q <-> (z < 0)%Z).
  { intros z. unfold Qlt, inject_Z. cbn. lia. }
  split; [reflexivity|]. split; [reflexivity|].
  split; [unfold Qminus, Qplus, Qopp, inject_Z; cbn; f_equal; lia|].
  split; [unfold Qeq, inject_Z; cbn; lia|].
  split.
  - rewrite Hmargin. destruct (Z.ltb_spec bs rs) as [Hlt|Hge]; split; intros H;
      try reflexivity; try lia; discriminate H.
  - rewrite Hmargin'. destruct (Z.ltb_spec bs rs) as [Hlt|Hge]; split; intros H;
      try reflexivity; try lia; discriminate H.
Qed.

Lemma training_row_consistent_witness :
  exists row,
    fst (Pipeline.build_feature_vector two_blue (qm_match 60 80) casj fresh_run)
      = Returned (Some row) /\
    Pipeline.feat row "winner" = 0%Q /\
    (Pipeline.feat row "score_margin" < 0)%Q /\
    Pipeline.feat row "epa_diff" =
      (Pipeline.feat row "red_sum_epa" - Pipeline.feat row "blue_sum_epa")%Q.
Proof.
  assert (exists row,
    fst (Pipeline.build_feature_vector two_blue (qm_match 60 80) casj fresh_run)
      = Returned (Some row)) as [row Hrow] by (eexists; vm_compute; reflexivity).
  exists row. split; [exact Hrow|].
  destruct (training_row_consistent _ _ _ _ _ Hrow)
    as (Hdiff & _ & Hm & Hnz & _ & H0).
  assert (Hneg : (Pipeline.feat row "score_margin" < 0)%Q).
  { vm_compute in Hrow. injection Hrow as <-. vm_compute. reflexivity. }
  split; [apply H0, Hneg|]. split; [exact Hneg | exact Hdiff].
Defined.

(** X3.  Every vector that the serving path builds with the persisted column
    list is consistent with itself: it has sixteen entries, entries 12 and 13
    are the competition level and the event week of the request, entry 14 is
    entry 4 minus entry 10 (the two sums) and entry 15 is entry 0 minus
    entry 6 (the two means). *)
Theorem serving_vector_consistent red_epas blue_epas cl wk X :
  Server.feature_vector Train.FEATURE_COLS red_epas blue_epas cl wk = Returned (Some X) ->
  let x := fun i => nth i X 0%Q in
  length X = 16%nat /\
  x 12%nat = inject_Z cl /\ x 13%nat = inject_Z wk /\
  x 14%nat = (x 4%nat - x 10%nat)%Q /\
  x 15%nat = (x 0%nat - x 6%nat)%Q.
Proof.
  unfold Server.feature_vector.
  destruct (valid_of red_epas) as [|r rs]; [discriminate|].
  destruct (valid_of blue_epas) as [|b bs]; [discriminate|].
  unfold Server.features_of, Server.avg_or_zero, Server.sum_or_zero, Server.max_or_zero.
  destruct (Server.column (r :: rs) "total") as [|rt] eqn:Ert; [discriminate|].
  destruct (Server.column (r :: rs) "auto") as [|ra]; [discriminate|].
  destruct (Server.column (r :: rs) "teleop") as [|rp]; [discriminate|].
  destruct (Server.column (r :: rs) "endgame") as [|rg]; [discriminate|].
  destruct (Server.column (b :: bs) "total") as [|bt] eqn:Ebt; [discriminate|].
  destruct (Server.column (b :: bs) "auto") as [|ba]; [discriminate|].
  destruct (Server.column (b :: bs) "teleop") as [|bp]; [discriminate|].
  destruct (Server.column (b :: bs) "endgame") as [|bg]; [discriminate|].
  cbn [obind]. intros [= <-]. cbn [nth length].
  repeat (split; [reflexivity|]). reflexivity.
Qed.

Lemma serving_vector_consistent_witness :
  exists X,
    Server.feature_vector Train.FEATURE_COLS
      [Some (as_record (rated 50)); None; Some (as_record (rated 30))]
      [Some (as_record (rated 20))] 3 5 = Returned (Some X) /\
    nth 14 X 0%Q = (nth 4 X 0 - nth 10 X 0)%Q /\
    nth 15 X 0%Q = (nth 0 X 0 - nth 6 X 0)%Q.
Proof.
  assert (exists X,
    Server.feature_vector Train.FEATURE_COLS
      [Some (as_record (rated 50)); None; Some (as_record (rated 30))]
      [Some (as_record (rated 20))] 3 5 = Returned (Some X))
    as [X HX] by (eexists; vm_compute; reflexivity).
  exists X. split; [exact HX|].
  destruct (serving_vector_consistent _ _ _ _ _ HX) as (_ & _ & _ & H14 & H15).
  split; [exact H14 | exact H15].
Defined.

(** ** Requests made while a row is built *)

Section Requests.

Variable net : nat -> string -> response.

Lemma get_team_epa_calls team ev (w : Pipeline.world) :
  Pipeline.calls (snd (Pipeline.get_team_epa net team ev w)) = Pipeline.calls w \/
  Pipeline.calls (snd (Pipeline.get_team_epa net team ev w))
    = (Pipeline.calls w ++ [STATBOTICS_BASE +:+ team_event_endpoint team ev])%list.
Proof.
  unfold Pipeline.get_team_epa.
  destruct (Pipeline.epa_cache w !! cache_key team ev); [now left|].
  destruct (Pipeline.rating_of_payload _); now right.
Qed.

Lemma fetch_all_calls teams ev (w : Pipeline.world) :
  exists new,
    Pipeline.calls (snd (Pipeline.fetch_all net teams ev w))
      = (Pipeline.calls w ++ new)%list /\
    (length new <= length teams)%nat /\
    forall u, In u new ->
      exists t, In t teams /\ u = STATBOTICS_BASE +:+ team_event_endpoint t ev.
Proof.
  revert w. induction teams as [|t teams IH]; intros w.
  - exists []. cbn. rewrite app_nil_r. repeat split; [lia | intros u []].
  - cbn [Pipeline.fetch_all].
    pose proof (get_team_epa_calls t ev w) as Hone.
    destruct (Pipeline.get_team_epa net t ev w) as [[e|r] w1]; cbn [snd] in Hone.
    + cbn [snd]. destruct Hone as [->| ->].
      * exists []. rewrite app_nil_r. repeat split; [cbn; lia | intros u []].
      * eexists. split; [reflexivity|]. split; [cbn; lia|].
        intros u [<-|[]]. exists t. split; [now left | reflexivity].
    + destruct (IH w1) as (new & Hnew & Hlen & Hin).
      assert (Hsnd : Pipeline.calls
                (snd (match Pipeline.fetch_all net teams ev w1 with
                      | (Raised e, w2) => (Raised e, w2)
                      | (Returned rs, w2) => (Returned (r :: rs), w2)
                      end)) = Pipeline.calls (snd (Pipeline.fetch_all net teams ev w1))).
      { destruct (Pipeline.fetch_all net teams ev w1) as [[?|?] ?]; reflexivity. }
      rewrite Hsnd, Hnew. destruct Hone as [->| ->].
      * exists new. split; [reflexivity|]. split; [cbn; lia|].
        intros u Hu. destruct (Hin u Hu) as (t' & Ht' & ->). exists t'. split; [now right | reflexivity].
      * exists ((STATBOTICS_BASE +:+ team_event_endpoint t ev) :: new).
        split; [now rewrite <- app_assoc|]. split; [cbn; lia|].
        intros u [<-|Hu]; [exists t; split; [now left | reflexivity]|].
        destruct (Hin u Hu) as (t' & Ht' & ->). exists t'. split; [now right | reflexivity].
Qed.

End Requests.

(** X4.  The request budget of one match.  [build_feature_vector] only ever
    appends to the log of rating requests; it appends at most six URLs, each
    the rating URL of one of the first three team numbers of the red or of the
    blue alliance at the event; and when an alliance has fewer than three
    team keys that parse, it returns nothing without any request and without
    touching the cache. *)
Theorem build_feature_vector_requests net m ev (w : Pipeline.world) :
  let red_teams := Pipeline.extract_team_numbers (Pipeline.red m) in
  let blue_teams := Pipeline.extract_team_numbers (Pipeline.blue m) in
  (exists new,
     Pipeline.calls (snd (Pipeline.build_feature_vector net m ev w))
       = (Pipeline.calls w ++ new)%list /\
     (length new <= 6)%nat /\
     forall u, In u new ->
       exists t, In t (take 3 red_teams ++ take 3 blue_teams)%list /\
                 u = STATBOTICS_BASE +:+ team_event_endpoint t (Pipeline.key ev)) /\
  ((length red_teams < 3)%nat \/ (length blue_teams < 3)%nat ->
   Pipeline.build_feature_vector net m ev w = (Returned None, w)).
Proof.
  intros red_teams blue_teams. unfold Pipeline.build_feature_vector.
  fold red_teams blue_teams. split.
  - destruct (_ || _).
    { exists []. cbn [snd]. rewrite app_nil_r. repeat split; [cbn; lia | intros u []]. }
    destruct (fetch_all_calls net (take 3 red_teams) (Pipeline.key ev) w)
      as (n1 & H1 & L1 & I1).
    destruct (Pipeline.fetch_all net (take 3 red_teams) (Pipeline.key ev) w)
      as [[e|red_epas] w1]; cbn [snd] in H1 |- *.
    + exists n1. split; [exact H1|]. rewrite length_take in L1. split; [lia|].
      intros u Hu. destruct (I1 u Hu) as (t & Ht & ->). exists t.
      split; [apply in_or_app; now left | reflexivity].
    + destruct (fetch_all_calls net (take 3 blue_teams) (Pipeline.key ev) w1)
        as (n2 & H2 & L2 & I2).
      assert (Hcalls : Pipeline.calls
                (snd (match Pipeline.fetch_all net (take 3 blue_teams) (Pipeline.key ev) w1 with
                      | (Raised e, w2) => (Raised e, w2)
                      | (Returned blue_epas, w2) =>
                          (Returned (Pipeline.feature_row m ev red_epas blue_epas), w2)
                      end))
              = Pipeline.calls
                  (snd (Pipeline.fetch_all net (take 3 blue_teams) (Pipeline.key ev) w1))).
      { destruct (Pipeline.fetch_all net (take 3 blue_teams) (Pipeline.key ev) w1)
          as [[?|?] ?]; reflexivity. }
      rewrite Hcalls, H2, H1. exists (n1 ++ n2)%list.
      split; [now rewrite app_assoc|].
      rewrite length_take in L1, L2. rewrite length_app. split; [lia|].
      intros u Hu. apply in_app_or in Hu as [Hu|Hu].
      * destruct (I1 u Hu) as (t & Ht & ->). exists t.
        split; [apply in_or_app; now left | reflexivity].
      * destruct (I2 u Hu) as (t & Ht & ->). exists t.
        split; [apply in_or_app; now right | reflexivity].
  - intros [H|H]; apply Nat.ltb_lt in H; rewrite H; [reflexivity|].
    now rewrite orb_true_r.
Qed.

(** A red alliance with one key that is no team number: nothing is asked. *)
Lemma build_feature_vector_requests_witness :
  Pipeline.build_feature_vector two_blue
    {| Pipeline.red := {| Pipeline.team_keys := ["frc1"; "frc2"; "tbd"]; Pipeline.score := 10 |};
       Pipeline.blue := {| Pipeline.team_keys := ["frc4"; "frc5"; "frc6"]; Pipeline.score := 20 |};
       Pipeline.comp_level := Some "qm" |} casj fresh_run
  = (Returned None, fresh_run).
Proof.
  apply (proj2 (build_feature_vector_requests two_blue _ casj fresh_run)).
  left. vm_compute. lia.
Defined.

(** ** What a fetch makes of an answer *)

Lemma statbotics_get_no_body r : no_body r = true -> Pipeline.statbotics_get r = PNone.
Proof.
  destruct r as [|status [body|]]; try reflexivity.
  - destruct status as [|p|p]; try reflexivity.
    do 8 (destruct p as [p|p|]; try reflexivity). discriminate.
  - intros _. destruct status as [|p|p]; try reflexivity.
    do 8 (destruct p as [p|p|]; try reflexivity).
Qed.

Lemma try_fetch_no_body r : no_body r = true -> Server.try_fetch r = Returned None.
Proof.
  destruct r as [|status [body|]]; try reflexivity.
  - destruct status as [|p|p]; try reflexivity.
    do 8 (destruct p as [p|p|]; try reflexivity). discriminate.
  - intros _. destruct status as [|p|p]; try reflexivity.
    do 8 (destruct p as [p|p|]; try reflexivity).
Qed.

(** X5.  A request that fails, an answer with a status other than 200 and a
    200 answer whose body is not JSON all end the same way in both clients:
    the lookup returns absent without raising, exactly one request has been
    made, and absent is what the cache now holds for the key (with the time
    of the lookup, in the serving client). *)
Theorem failed_request_is_absent :
  (forall net team ev (w : Pipeline.world),
     Pipeline.epa_cache w !! cache_key team ev = None ->
     no_body (net (length (Pipeline.calls w))
                (STATBOTICS_BASE +:+ team_event_endpoint team ev)) = true ->
     Pipeline.get_team_epa net team ev w =
       (Returned None,
        {| Pipeline.epa_cache := <[cache_key team ev := None]> (Pipeline.epa_cache w);
           Pipeline.calls :=
             (Pipeline.calls w ++ [STATBOTICS_BASE +:+ team_event_endpoint team ev])%list |})) /\
  (forall net clock team ev (w : Server.world),
     match Server._epa_cache w !! cache_key team ev with
     | Some (_, ts) => (Server.EPA_CACHE_TTL <= clock (Server.ticks w) - ts)%Q
     | None => True
     end ->
     no_body (net (length (Server.calls w))
                (STATBOTICS_BASE +:+ team_event_endpoint team ev)) = true ->
     Server.get_team_epa_cached net clock team ev w =
       (Returned None,
        {| Server._epa_cache :=
             <[cache_key team ev := (None, clock (Server.ticks w))]> (Server._epa_cache w);
           Server.calls :=
             (Server.calls w ++ [STATBOTICS_BASE +:+ team_event_endpoint team ev])%list;
           Server.ticks := S (Server.ticks w) |})).
Proof.
  split.
  - intros net team ev w Hmiss Hfail.
    rewrite (get_team_epa_miss _ _ _ _ Hmiss). cbv zeta.
    now rewrite (statbotics_get_no_body _ Hfail).
  - intros net clock team ev w Hstale Hfail. unfold Server.get_team_epa_cached.
    cbn [Server._epa_cache Server.calls Server.ticks].
    rewrite (try_fetch_no_body _ Hfail).
    destruct (Server._epa_cache w !! cache_key team ev) as [[data ts]|]; [|reflexivity].
    destruct (Qlt_le_dec _ _) as [Hlt|_]; [|reflexivity].
    exfalso. exact (Qlt_not_le _ _ Hlt Hstale).
Qed.

(** Team 2 is unknown to the service (404). *)
Lemma failed_request_is_absent_witness :
  fst (Pipeline.get_team_epa lone_red 2 "2024casj" fresh_run) = Returned None /\
  Pipeline.calls (snd (Pipeline.get_team_epa lone_red 2 "2024casj" fresh_run))
    = [url_of 2 "2024casj"] /\
  fst (Server.get_team_epa_cached lone_red noon 2 "2024casj" fresh_server) = Returned None /\
  Server._epa_cache (snd (Server.get_team_epa_cached lone_red noon 2 "2024casj" fresh_server))
    !! cache_key 2 "2024casj" = Some (None, noon 0%nat).
Proof.
  destruct failed_request_is_absent as [Hbatch Hserve].
  rewrite (Hbatch lone_red 2%Z "2024casj" fresh_run) by (vm_compute; reflexivity).
  rewrite (Hserve lone_red noon 2%Z "2024casj" fresh_server I) by (vm_compute; reflexivity).
  cbn [fst snd Pipeline.calls Server._epa_cache Server.ticks fresh_server].
  repeat split.
Defined.

(** [epa_result] gives absent for what is neither an object nor a number,
    and for nothing else. *)
Lemma epa_result_absent epa :
  Pipeline.epa_result epa = Returned None <-> is_dict epa = false /\ is_number epa = false.
Proof.
  unfold Pipeline.epa_result.
  destruct epa as [| b | z | q | s | l | c]; cbn [is_dict is_number obind float number_of];
    try (split; [intros _; split; reflexivity | reflexivity]);
    try (split; [discriminate | intros [_ H]; discriminate H]).
  - destruct (fits_float z); cbn [obind];
      (split; [discriminate | intros [_ H]; discriminate H]).
  - split; [|intros [H _]; discriminate H].
    destruct (py_get c "breakdown");
      repeat match goal with
      | |- obind ?m _ = Returned None -> _ => destruct m; cbn [obind]; [discriminate|]
      end; discriminate.
Qed.

(** X6.  On a cache miss answered with status 200 and a JSON object, the
    batch client returns absent exactly when the object has no [epa] key or
    its [epa] is neither an object nor a number.  The only exception it lets
    escape is the [OverflowError] of converting an integer beyond the range
    of a double, and it returns whenever every integer of the object is
    within that range. *)
Theorem batch_absent_on_object net team ev (w : Pipeline.world) p :
  Pipeline.epa_cache w !! cache_key team ev = None ->
  net (length (Pipeline.calls w)) (STATBOTICS_BASE +:+ team_event_endpoint team ev)
    = Response 200 (Some (PDict p)) ->
  (fst (Pipeline.get_team_epa net team ev w) = Returned None <->
   match dict_get p "epa" with
   | None => True
   | Some epa => is_dict epa = false /\ is_number epa = false
   end) /\
  (forall e, fst (Pipeline.get_team_epa net team ev w) = Raised e -> e = OverflowError) /\
  (ints_fit (PDict p) = true ->
   exists r, fst (Pipeline.get_team_epa net team ev w) = Returned r).
Proof.
  intros Hmiss Hnet. rewrite (get_team_epa_miss _ _ _ _ Hmiss). cbv zeta. rewrite Hnet.
  cbn [Pipeline.statbotics_get].
  split; [|split].
  - destruct (dict_get p "epa") as [epa|] eqn:Hepa.
    + rewrite (payload_with_epa _ _ Hepa). rewrite <- epa_result_absent.
      destruct (Pipeline.epa_result epa); cbn [fst]; split; congruence.
    + unfold Pipeline.rating_of_payload.
      destruct p as [|kv p']; [cbn; tauto|].
      cbn [truthy py_in obind]. rewrite Hepa. cbn [fst]. tauto.
  - intros e. destruct (Pipeline.rating_of_payload (PDict p)) as [e'|r] eqn:E; cbn [fst];
      [|discriminate].
    intros [= <-]. exact (rating_of_payload_raises _ _ E).
  - intros Hfit. destruct (rating_of_payload_object p Hfit) as [r ->]. cbn [fst].
    eexists; reflexivity.
Qed.

(** An object without [epa], an [epa] that is a text, and a rating whose
    integers all fit. *)
Lemma batch_absent_on_object_witness :
  fst (Pipeline.get_team_epa (always (PDict unrated_payload)) 254 "2019casj" fresh_run)
    = Returned None /\
  fst (Pipeline.get_team_epa (always (PDict [("epa", PStr "n/a")])) 254 "2019casj" fresh_run)
    = Returned None /\
  exists r,
    fst (Pipeline.get_team_epa (always (PDict structured_payload)) 254 "2024casj" fresh_run)
      = Returned r.
Proof.
  split; [|split].
  - apply (proj2 (proj1 (batch_absent_on_object (always (PDict unrated_payload)) 254
                           "2019casj" fresh_run unrated_payload eq_refl eq_refl))).
    exact I.
  - apply (proj2 (proj1 (batch_absent_on_object (always (PDict [("epa", PStr "n/a")])) 254
                           "2019casj" fresh_run [("epa", PStr "n/a")] eq_refl eq_refl))).
    split; reflexivity.
  - apply (proj2 (proj2 (batch_absent_on_object (always (PDict structured_payload)) 254
                           "2024casj" fresh_run structured_payload eq_refl eq_refl))).
    reflexivity.
Defined.

(** X7.  The serving client never makes absent out of a 200 answer with a
    JSON body: when the lookup goes to the network and gets one, it either
    raises or returns a record with exactly the keys total, auto, teleop and
    endgame, in that order, which it stores under the key with the time of
    the lookup. *)
Theorem serving_record_on_200 net clock team ev (w : Server.world) body :
  match Server._epa_cache w !! cache_key team ev with
  | Some (_, ts) => (Server.EPA_CACHE_TTL <= clock (Server.ticks w) - ts)%Q
  | None => True
  end ->
  net (length (Server.calls w)) (STATBOTICS_BASE +:+ team_event_endpoint team ev)
    = Response 200 (Some body) ->
  fst (Server.get_team_epa_cached net clock team ev w) <> Returned None /\
  forall v, fst (Server.get_team_epa_cached net clock team ev w) = Returned v ->
    exists d, v = Some d /\
      dict_keys d = ["total"; "auto"; "teleop"; "endgame"] /\
      Server._epa_cache (snd (Server.get_team_epa_cached net clock team ev w))
        !! cache_key team ev = Some (Some d, clock (Server.ticks w)).
Proof.
  intros Hstale Hnet.
  assert (Hgo : Server.get_team_epa_cached net clock team ev w =
    match Server.result_of_body body with
    | Returned d =>
        (Returned (Some d),
         {| Server._epa_cache :=
              <[cache_key team ev := (Some d, clock (Server.ticks w))]> (Server._epa_cache w);
            Server.calls :=
              (Server.calls w ++ [STATBOTICS_BASE +:+ team_event_endpoint team ev])%list;
            Server.ticks := S (Server.ticks w) |})
    | Raised e =>
        (Raised e,
         {| Server._epa_cache := Server._epa_cache w;
            Server.calls :=
              (Server.calls w ++ [STATBOTICS_BASE +:+ team_event_endpoint team ev])%list;
            Server.ticks := S (Server.ticks w) |})
    end).
  { unfold Server.get_team_epa_cached.
    cbn [Server._epa_cache Server.calls Server.ticks]. rewrite Hnet.
    cbn [Server.try_fetch].
    destruct (Server._epa_cache w !! cache_key team ev) as [[data ts]|].
    - destruct (Qlt_le_dec _ _) as [Hlt|_]; [exfalso; exact (Qlt_not_le _ _ Hlt Hstale)|].
      destruct (Server.result_of_body body); reflexivity.
    - destruct (Server.result_of_body body); reflexivity. }
  rewrite Hgo. clear Hgo.
  destruct (Server.result_of_body body) as [e|d] eqn:Hd; cbn [fst snd].
  - split; [discriminate | intros v H; discriminate H].
  - split; [discriminate|]. intros v [= <-]. exists d. split; [reflexivity|].
    split; [|cbn [Server._epa_cache]; apply lookup_insert_eq].
    revert Hd. unfold Server.result_of_body.
    repeat match goal with
           | |- context [obind ?o _] =>
               lazymatch o with
               | Returned _ => fail
               | _ => destruct o; cbn [obind]; [discriminate|]
               end
           end.
    intros [= <-]. reflexivity.
Qed.

Lemma serving_record_on_200_witness :
  exists d,
    fst (Server.get_team_epa_cached (always (PDict unrated_payload)) noon 254 "2019casj"
           fresh_server) = Returned (Some d) /\
    dict_keys d = ["total"; "auto"; "teleop"; "endgame"].
Proof.
  destruct (serving_record_on_200 (always (PDict unrated_payload)) noon 254 "2019casj"
              fresh_server (PDict unrated_payload) I eq_refl) as [_ Hrec].
  destruct (Hrec (Some [("total", PInt 0); ("auto", PInt 0);
                        ("teleop", PInt 0); ("endgame", PInt 0)]))
    as (d & Hd & Hkeys & _); [vm_compute; reflexivity|].
  exists d. split; [|exact Hkeys]. rewrite <- Hd. vm_compute. reflexivity.
Defined.

(** ** Requests the endpoint turns away *)

(** X8.  A prediction request that is turned away with 503 (models not
    loaded) or 400 (a team list that does not have 3 entries) leaves the
    server as it was: no rating request, no cache entry, no clock read. *)
Theorem rejected_request_leaves_world net clock loaded cols scaler clf rr br req
    (w : Server.world) :
  loaded = false \/
  length (Server.red_teams req) <> 3%nat \/ length (Server.blue_teams req) <> 3%nat ->
  snd (Server.predict net clock loaded cols scaler clf rr br req w) = w /\
  (fst (Server.predict net clock loaded cols scaler clf rr br req w) = Server.HTTPException 503 \/
   fst (Server.predict net clock loaded cols scaler clf rr br req w) = Server.HTTPException 400).
Proof.
  intros H. unfold Server.predict.
  destruct loaded; cbn [negb]; [|split; [reflexivity | now left]].
  destruct H as [H|H]; [discriminate|].
  destruct (Nat.eqb_spec (length (Server.red_teams req)) 3),
           (Nat.eqb_spec (length (Server.blue_teams req)) 3);
    cbn [negb orb]; try (split; [reflexivity | now right]).
  destruct H; contradiction.
Qed.

Lemma rejected_request_leaves_world_witness :
  snd (Server.predict two_blue noon true Train.FEATURE_COLS no_scaling
         (constant (3 # 4)) (constant 60) (constant 75)
         {| Server.red_teams := [1; 2; 3; 4]%Z; Server.blue_teams := [4; 5; 6]%Z;
            Server.event_key := "2024casj"; Server.comp_level := 0; Server.event_week := 2 |}
         fresh_server) = fresh_server.
Proof.
  apply rejected_request_leaves_world. right. left. cbn. lia.
Defined.

(** ** Decimal text *)

Section Decimal.

Lemma append_cons (x : ascii) (a b : string) : String x a +:+ b = String x (a +:+ b).
Proof. reflexivity. Qed.

Lemma append_empty (b : string) : "" +:+ b = b.
Proof. reflexivity. Qed.

Lemma append_assoc_str (a b c : string) : (a +:+ b) +:+ c = a +:+ (b +:+ c).
Proof.
  induction a as [|x a IH]; [reflexivity|]. rewrite !append_cons. f_equal. exact IH.
Qed.

Lemma append_inv_head (s a b : string) : s +:+ a = s +:+ b -> a = b.
Proof.
  induction s as [|x s IH]; [auto|]. rewrite !append_cons. intros [= H]. auto.
Qed.

Lemma list_ascii_of_append (a b : string) :
  list_ascii_of_string (a +:+ b) = (list_ascii_of_string a ++ list_ascii_of_string b)%list.
Proof.
  induction a as [|x a IH]; [reflexivity|].
  rewrite append_cons. cbn [list_ascii_of_string app]. f_equal. exact IH.
Qed.

Lemma all_digits_append a b : all_digits a -> all_digits b -> all_digits (a +:+ b).
Proof.
  unfold all_digits. rewrite list_ascii_of_append. intros Ha Hb.
  apply Forall_app. now split.
Qed.

Lemma digit_of_pretty_char k :
  (k < 10)%N -> Pipeline.digit_of (pretty_N_char k) = Some (Z.of_N k).
Proof.
  intros Hk.
  assert (k = 0 \/ k = 1 \/ k = 2 \/ k = 3 \/ k = 4 \/ k = 5 \/ k = 6 \/ k = 7
          \/ k = 8 \/ k = 9)%N as Hcases by lia.
  repeat (destruct Hcases as [->|Hcases]; [reflexivity|]). subst k. reflexivity.
Qed.

(** The text of a number is a run of digits put in front of what was there,
    and it is not empty unless the number is 0. *)
Lemma pretty_N_go_digits x s :
  exists d, pretty_N_go x s = d +:+ s /\ all_digits d /\ ((0 < x)%N -> d <> "").
Proof.
  revert s. induction (N.lt_wf_0 x) as [x _ IH]. intros s.
  assert (x = 0 \/ 0 < x)%N as [->|Hpos] by lia.
  - exists "". rewrite pretty_N_go_0. repeat split; [constructor | lia].
  - rewrite pretty_N_go_step by exact Hpos.
    destruct (IH (x `div` 10)%N (N.div_lt x 10 Hpos eq_refl)
                (String (pretty_N_char (x `mod` 10)) s)) as (d & -> & Hd & _).
    exists (d +:+ String (pretty_N_char (x `mod` 10)) ""). split; [|split].
    + now rewrite append_assoc_str.
    + apply all_digits_append; [exact Hd|]. constructor; [|constructor].
      rewrite digit_of_pretty_char by (apply N.mod_lt; lia). discriminate.
    + intros _. destruct d; discriminate.
Qed.

(** Reading the digits back gives the number. *)
Lemma parse_pretty_N_go x s b :
  (0 < x)%N ->
  Pipeline.parse_digits (list_ascii_of_string (pretty_N_go x s)) 0 b
  = Pipeline.parse_digits (list_ascii_of_string s) (Z.of_N x) true.
Proof.
  revert s b. induction (N.lt_wf_0 x) as [x _ IH]. intros s b Hpos.
  rewrite pretty_N_go_step by exact Hpos.
  pose proof (N.div_mod x 10 ltac:(lia)) as Hdm.
  pose proof (N.mod_lt x 10 ltac:(lia)) as Hlt.
  assert (x `div` 10 = 0 \/ 0 < x `div` 10)%N as [H0|Hq] by lia.
  - rewrite H0, pretty_N_go_0. cbn [list_ascii_of_string Pipeline.parse_digits].
    rewrite digit_of_pretty_char by exact Hlt. f_equal. lia.
  - rewrite IH by (try apply N.div_lt; lia).
    cbn [list_ascii_of_string Pipeline.parse_digits].
    rewrite digit_of_pretty_char by exact Hlt. f_equal. lia.
Qed.

(** A digit is white space neither for [str.strip] nor for [int]. *)
Lemma digit_not_space c :
  Pipeline.digit_of c <> None ->
  Pipeline.is_space c = false /\ Pipeline.int_space c = false.
Proof.
  unfold Pipeline.digit_of, Pipeline.is_space, Pipeline.int_space.
  destruct (Nat.leb_spec 48 (nat_of_ascii c)), (Nat.leb_spec (nat_of_ascii c) 57);
    cbn [andb]; try congruence. intros _.
  destruct (Nat.eqb_spec (nat_of_ascii c) 32); [lia|].
  destruct (Nat.eqb_spec (nat_of_ascii c) 133); [lia|].
  destruct (Nat.eqb_spec (nat_of_ascii c) 160); [lia|].
  destruct (Nat.leb_spec 9 (nat_of_ascii c)), (Nat.leb_spec (nat_of_ascii c) 13),
           (Nat.leb_spec 28 (nat_of_ascii c)), (Nat.leb_spec (nat_of_ascii c) 31);
    cbn; try (split; reflexivity); lia.
Qed.

Lemma lstrip_id space l :
  Forall (fun c => space c = false) l -> Pipeline.lstrip space l = l.
Proof. destruct 1 as [|c l Hc _]; [reflexivity|]. cbn. now rewrite Hc. Qed.

Lemma strip_id space l :
  Forall (fun c => space c = false) l -> Pipeline.strip space l = l.
Proof.
  intros H. unfold Pipeline.strip. rewrite (lstrip_id space l H).
  rewrite lstrip_id by now apply Forall_rev. apply rev_involutive.
Qed.

Lemma digits_not_space d :
  all_digits d -> Forall (fun c => Pipeline.int_space c = false) (list_ascii_of_string d).
Proof.
  intros H. eapply Forall_impl; [exact H|]. intros c. apply digit_not_space.
Qed.

(** The text of a number below [10^k] has no more than [k] digits. *)
Lemma pretty_N_go_count x s k :
  (x < 10 ^ N.of_nat k)%N ->
  (Pipeline.count_digits (list_ascii_of_string (pretty_N_go x s))
   <= k + Pipeline.count_digits (list_ascii_of_string s))%nat.
Proof.
  revert s k. induction (N.lt_wf_0 x) as [x _ IH]. intros s k Hx.
  assert (x = 0 \/ 0 < x)%N as [->|Hpos] by lia.
  - rewrite pretty_N_go_0. lia.
  - rewrite pretty_N_go_step by exact Hpos.
    destruct k as [|k]; [cbn in Hx; lia|].
    rewrite Nat2N.inj_succ, N.pow_succ_r' in Hx.
    assert (x `div` 10 < 10 ^ N.of_nat k)%N as Hq
      by (apply N.Div0.div_lt_upper_bound; exact Hx).
    pose proof (IH (x `div` 10)%N (N.div_lt x 10 Hpos eq_refl)
                  (String (pretty_N_char (x `mod` 10)) s) k Hq) as Hc.
    cbn [list_ascii_of_string Pipeline.count_digits] in Hc.
    rewrite digit_of_pretty_char in Hc by (apply N.mod_lt; lia). lia.
Qed.

End Decimal.

Section DecimalRoundTrip.

Lemma append_nil_r (s : string) : s +:+ "" = s.
Proof. induction s as [|x s IH]; [reflexivity|]. rewrite append_cons. f_equal. exact IH. Qed.

Lemma pretty_N_go_nil x :
  (0 < x)%N -> all_digits (pretty_N_go x "") /\ pretty_N_go x "" <> "".
Proof.
  intros Hpos. destruct (pretty_N_go_digits x "") as (d & -> & Hd & Hne).
  rewrite append_nil_r. split; [exact Hd | exact (Hne Hpos)].
Qed.

(** The text of an integer: an optional minus sign and a non-empty run of
    digits that reads back as its absolute value. *)
Lemma pretty_Z_shape (z : Z) :
  exists d,
    all_digits d /\ d <> "" /\
    Pipeline.parse_digits (list_ascii_of_string d) 0 false = Some (Z.abs z) /\
    ((0 <= z)%Z /\ pretty z = d \/ (z < 0)%Z /\ pretty z = String "-"%char d).
Proof.
  destruct z as [|p|p].
  - exists "0". repeat split; [repeat constructor; discriminate | discriminate |].
    left. split; [lia | reflexivity].
  - exists (pretty_N_go (N.pos p) "").
    destruct (pretty_N_go_nil (N.pos p) ltac:(lia)) as [Hd Hne].
    split; [exact Hd|]. split; [exact Hne|]. split.
    + rewrite parse_pretty_N_go by lia. reflexivity.
    + left. split; [lia | reflexivity].
  - exists (pretty_N_go (N.pos p) "").
    destruct (pretty_N_go_nil (N.pos p) ltac:(lia)) as [Hd Hne].
    split; [exact Hd|]. split; [exact Hne|]. split.
    + rewrite parse_pretty_N_go by lia. reflexivity.
    + right. split; [lia | reflexivity].
Qed.

Lemma py_int_digit_first s c m :
  Pipeline.strip Pipeline.int_space (list_ascii_of_string s) = c :: m ->
  (Pipeline.count_digits (c :: m) <= Pipeline.INT_MAX_STR_DIGITS)%nat ->
  Pipeline.digit_of c <> None ->
  Pipeline.py_int s = Pipeline.parse_digits (c :: m) 0 false.
Proof.
  intros Hs Hlen Hc. unfold Pipeline.py_int. rewrite Hs.
  rewrite (proj2 (Nat.ltb_ge _ _) Hlen).
  destruct c as [[] [] [] [] [] [] [] []]; try reflexivity;
    exfalso; apply Hc; reflexivity.
Qed.

(** The text of an integer that [int] can read has no more digits than
    [int] accepts. *)
Lemma count_digits_pretty (z : Z) :
  int_readable z ->
  (Pipeline.count_digits (list_ascii_of_string (pretty z))
   <= Pipeline.INT_MAX_STR_DIGITS)%nat.
Proof.
  unfold int_readable.
  assert (1 <= Pipeline.INT_MAX_STR_DIGITS)%nat as Hk
    by (unfold Pipeline.INT_MAX_STR_DIGITS; lia).
  revert Hk. generalize Pipeline.INT_MAX_STR_DIGITS as k. intros k Hk Hz.
  assert (forall p : positive, (Z.pos p < 10 ^ Z.of_nat k)%Z ->
            (Pipeline.count_digits (list_ascii_of_string (pretty_N_go (N.pos p) ""))
             <= k)%nat) as Hpos.
  { intros p Hp.
    pose proof (pretty_N_go_count (N.pos p) "" k) as Hc.
    cbn [list_ascii_of_string Pipeline.count_digits] in Hc. rewrite Nat.add_0_r in Hc.
    apply Hc. apply N2Z.inj_lt. rewrite N2Z.inj_pow, nat_N_Z. exact Hp. }
  destruct z as [|p|p].
  - change (pretty 0%Z) with "0". cbn. exact Hk.
  - exact (Hpos p Hz).
  - change (pretty (Z.neg p)) with (String "-"%char (pretty_N_go (N.pos p) "")).
    cbn [list_ascii_of_string Pipeline.count_digits].
    change (Pipeline.digit_of "-"%char) with (@None Z). exact (Hpos p Hz).
Qed.

(** [int(str(z)) == z], for an integer whose text [int] accepts. *)
Lemma py_int_pretty (z : Z) : int_readable z -> Pipeline.py_int (pretty z) = Some z.
Proof.
  intros Hz. pose proof (count_digits_pretty z Hz) as Hlen.
  destruct (pretty_Z_shape z) as (d & Hd & Hne & Hval & [[Hpos Hp]|[Hneg Hp]]);
    rewrite Hp in *.
  - pose proof (strip_id _ _ (digits_not_space d Hd)) as Hstrip.
    destruct d as [|c d']; [now destruct Hne|].
    cbn [list_ascii_of_string] in *.
    rewrite (py_int_digit_first _ c (list_ascii_of_string d'));
      [| exact Hstrip | exact Hlen |].
    + rewrite Hval. f_equal. lia.
    + now inversion Hd.
  - unfold Pipeline.py_int. cbn [list_ascii_of_string] in *.
    rewrite strip_id.
    + rewrite (proj2 (Nat.ltb_ge _ _) Hlen).
      rewrite Hval. cbn [option_map]. f_equal. lia.
    + constructor; [reflexivity | now apply digits_not_space].
Qed.

(** A text of 4301 digits is refused. *)
Lemma py_int_refuses_long : Pipeline.py_int (pretty (10 ^ 4300)%Z) = None.
Proof. vm_compute. reflexivity. Qed.

Lemma remove_frc_id s :
  Forall (fun c => c <> "f"%char) (list_ascii_of_string s) -> Pipeline.remove_frc s = s.
Proof.
  induction s as [|c s IH]; [reflexivity|]. cbn [list_ascii_of_string].
  intros H. inversion H as [|? ? Hc Hs]; subst.
  specialize (IH Hs).
  destruct c as [[] [] [] [] [] [] [] []];
    try (cbn [Pipeline.remove_frc]; f_equal; exact IH).
  now destruct Hc.
Qed.

Lemma pretty_Z_no_f (z : Z) : Forall (fun c => c <> "f"%char) (list_ascii_of_string (pretty z)).
Proof.
  destruct (pretty_Z_shape z) as (d & Hd & _ & _ & [[_ ->]|[_ ->]]).
  - eapply Forall_impl; [exact Hd|]. intros c Hc ->. now apply Hc.
  - cbn [list_ascii_of_string]. constructor; [discriminate|].
    eapply Forall_impl; [exact Hd|]. intros c Hc ->. now apply Hc.
Qed.

End DecimalRoundTrip.

(** ** Team keys *)

(** X9.  Team keys of the form [frc] followed by the decimal text of a
    number of at most 4300 digits are read back as exactly those numbers, in
    order; and whatever the keys look like, [extract_team_numbers] never
    returns more numbers than there are keys (a key that is no number is
    passed over, it raises nothing). *)
Theorem team_keys_round_trip :
  (forall (nums : list Z) (sc : Z),
     Forall int_readable nums ->
     Pipeline.extract_team_numbers
       {| Pipeline.team_keys := map (fun z => "frc" +:+ pretty z) nums;
          Pipeline.score := sc |} = nums) /\
  (forall a : Pipeline.alliance,
     (length (Pipeline.extract_team_numbers a) <= length (Pipeline.team_keys a))%nat).
Proof.
  split.
  - intros nums sc Hnums. unfold Pipeline.extract_team_numbers. cbn [Pipeline.team_keys].
    induction Hnums as [|z nums Hz _ IH]; [reflexivity|].
    cbn [map omap list_omap].
    assert (Hkey : Pipeline.remove_frc ("frc" +:+ pretty z) = pretty z).
    { change ("frc" +:+ pretty z)
        with (String "f"%char (String "r"%char (String "c"%char (pretty z)))).
      cbn [Pipeline.remove_frc]. apply remove_frc_id, pretty_Z_no_f. }
    rewrite Hkey, (py_int_pretty z Hz). f_equal. exact IH.
  - intros a. unfold Pipeline.extract_team_numbers.
    induction (Pipeline.team_keys a) as [|k ks IH]; [reflexivity|].
    cbn [omap list_omap length].
    destruct (Pipeline.py_int (Pipeline.remove_frc k)); cbn [length]; lia.
Qed.

(** Three keys, and an alliance with a key that is no number. *)
Lemma team_keys_round_trip_witness :
  Forall int_readable [254; 1678; 0]%Z /\
  Pipeline.extract_team_numbers
    {| Pipeline.team_keys := map (fun z => "frc" +:+ pretty z) [254; 1678; 0]%Z;
       Pipeline.score := 80 |} = [254; 1678; 0]%Z /\
  (length (Pipeline.extract_team_numbers
             {| Pipeline.team_keys := ["frc254"; "frcABC"; "frc1678"];
                Pipeline.score := 80 |}) <= 3)%nat.
Proof.
  assert (Forall int_readable [254; 1678; 0]%Z) as Hnums
    by (repeat constructor; vm_compute; reflexivity).
  split; [exact Hnums|]. split.
  - exact (proj1 team_keys_round_trip [254; 1678; 0]%Z 80%Z Hnums).
  - exact (proj2 team_keys_round_trip
             {| Pipeline.team_keys := ["frc254"; "frcABC"; "frc1678"];
                Pipeline.score := 80 |}).
Defined.

(** ** Cache keys and rating URLs *)

Section Keys.

Lemma digits_sep_inj d d' (c : ascii) e e' :
  all_digits d -> all_digits d' -> Pipeline.digit_of c = None ->
  d +:+ String c e = d' +:+ String c e' -> d = d' /\ e = e'.
Proof.
  intros Hd. revert d'. induction d as [|x d IH]; intros d' Hd' Hc Heq.
  - destruct d' as [|y d']; [rewrite !append_empty in Heq; now injection Heq as <-|].
    rewrite append_empty, append_cons in Heq. injection Heq as <- _.
    inversion Hd' as [|? ? Hy _]. contradiction.
  - destruct d' as [|y d'].
    + rewrite append_empty, append_cons in Heq. injection Heq as -> _.
      inversion Hd as [|? ? Hx _]. contradiction.
    + rewrite !append_cons in Heq. injection Heq as <- Heq.
      inversion Hd as [|? ? _ Hd1]. inversion Hd' as [|? ? _ Hd1'].
      destruct (IH Hd1 d' Hd1' Hc Heq) as [<- <-]. now split.
Qed.

(** A number's text followed by a separator that is not a digit determines
    the number and what follows. *)
Lemma pretty_sep_inj (t t' : Z) (c : ascii) e e' :
  Pipeline.digit_of c = None ->
  pretty t +:+ String c e = pretty t' +:+ String c e' -> t = t' /\ e = e'.
Proof.
  intros Hc Heq.
  destruct (pretty_Z_shape t) as (d & Hd & Hne & _ & Ht).
  destruct (pretty_Z_shape t') as (d' & Hd' & Hne' & _ & Ht').
  assert (Hfirst : forall s, all_digits s -> s <> "" ->
            exists x s0, s = String x s0 /\ Pipeline.digit_of x <> None).
  { intros [|x s0] Hs Hs0; [now destruct Hs0|]. exists x, s0. split; [reflexivity|].
    now inversion Hs. }
  destruct Ht as [[_ Ep]|[_ Ep]], Ht' as [[_ Ep']|[_ Ep']].
  - rewrite Ep, Ep' in Heq. destruct (digits_sep_inj _ _ _ _ _ Hd Hd' Hc Heq) as [<- <-].
    split; [|reflexivity]. apply (inj pretty). congruence.
  - rewrite Ep, Ep' in Heq. destruct (Hfirst d Hd Hne) as (x & s0 & -> & Hx).
    rewrite !append_cons in Heq. injection Heq as -> _. now destruct Hx.
  - rewrite Ep, Ep' in Heq. destruct (Hfirst d' Hd' Hne') as (x & s0 & -> & Hx).
    rewrite !append_cons in Heq. injection Heq as <- _. now destruct Hx.
  - rewrite Ep, Ep' in Heq. rewrite !append_cons in Heq. injection Heq as Heq.
    destruct (digits_sep_inj _ _ _ _ _ Hd Hd' Hc Heq) as [<- <-].
    split; [|reflexivity]. apply (inj pretty). congruence.
Qed.

Lemma cache_key_inj (team team' : Z) (ev ev' : string) :
  cache_key team ev = cache_key team' ev' -> team = team' /\ ev = ev'.
Proof.
  unfold cache_key. intros H.
  apply (pretty_sep_inj team team' "-"%char ev ev'); [reflexivity | exact H].
Qed.

Lemma rating_url_inj (team team' : Z) (ev ev' : string) :
  STATBOTICS_BASE +:+ team_event_endpoint team ev
    = STATBOTICS_BASE +:+ team_event_endpoint team' ev' -> team = team' /\ ev = ev'.
Proof.
  unfold team_event_endpoint. intros H.
  apply append_inv_head, append_inv_head in H.
  apply (pretty_sep_inj team team' "/"%char ev ev'); [reflexivity | exact H].
Qed.

End Keys.

(** X10.  The cache key and the rating URL each determine the team number and
    the event key they were built from: two different (team, event) pairs
    never share a cache entry in either client, and never share a URL. *)
Theorem cache_key_injective (team team' : Z) (ev ev' : string) :
  (cache_key team ev = cache_key team' ev' -> team = team' /\ ev = ev') /\
  (STATBOTICS_BASE +:+ team_event_endpoint team ev
     = STATBOTICS_BASE +:+ team_event_endpoint team' ev' -> team = team' /\ ev = ev').
Proof. split; [apply cache_key_inj | apply rating_url_inj]. Qed.

Lemma cache_key_injective_witness :
  cache_key 12 "2024casj" <> cache_key 1 "2-2024casj" /\
  cache_key 254 "2024casj" = "254-2024casj".
Proof.
  split; [|vm_compute; reflexivity].
  intros H. apply (proj1 (cache_key_injective _ _ _ _)) in H. destruct H as [H _].
  discriminate H.
Defined.

(** ** No rating is requested twice in a batch run *)

Section Settled.

Variable net : nat -> string -> response.

Lemma fresh_run_settled : requests_settled fresh_run.
Proof. split; [constructor | intros team ev []]. Qed.

Lemma nodup_snoc {A} (l : list A) (x : A) :
  List.NoDup l -> ~ In x l -> List.NoDup (l ++ [x]).
Proof.
  induction 1 as [|y l Hy Hl IH]; intros Hx; cbn [app].
  - constructor; [intros [] | constructor].
  - constructor.
    + intros Hin. apply in_app_or in Hin as [Hin|[->|[]]]; [now apply Hy|].
      apply Hx. now left.
    + apply IH. intros Hin. apply Hx. now right.
Qed.

Lemma get_team_epa_settled team ev (w w' : Pipeline.world) v :
  requests_settled w ->
  Pipeline.get_team_epa net team ev w = (Returned v, w') ->
  requests_settled w'.
Proof.
  intros [Hnd Hreq]. unfold Pipeline.get_team_epa.
  destruct (Pipeline.epa_cache w !! cache_key team ev) as [c|] eqn:Hc.
  - intros [= <- <-]. now split.
  - destruct (Pipeline.rating_of_payload _) as [e|r]; intros [= <- <-].
    cbn [Pipeline.epa_cache Pipeline.calls]. split.
    + cbn [Pipeline.calls].
      apply nodup_snoc; [exact Hnd|]. intros Hin. exact (Hreq team ev Hin Hc).
    + cbn [Pipeline.epa_cache Pipeline.calls].
      intros team' ev' Hin. apply in_app_or in Hin as [Hin|[Heq|[]]].
      * intros Hnone. apply (Hreq team' ev' Hin).
        destruct (decide (cache_key team ev = cache_key team' ev')) as [Hk|Hk].
        -- rewrite Hk, lookup_insert_eq in Hnone. discriminate.
        -- now rewrite lookup_insert_ne in Hnone.
      * apply rating_url_inj in Heq as [-> ->].
        rewrite lookup_insert_eq. discriminate.
Qed.

Lemma fetch_all_settled teams ev (w w' : Pipeline.world) rs :
  requests_settled w ->
  Pipeline.fetch_all net teams ev w = (Returned rs, w') ->
  requests_settled w'.
Proof.
  revert w rs. induction teams as [|t teams IH]; intros w rs Hw; cbn [Pipeline.fetch_all].
  - now intros [= <- <-].
  - destruct (Pipeline.get_team_epa net t ev w) as [[e|r] w1] eqn:H1; [discriminate|].
    destruct (Pipeline.fetch_all net teams ev w1) as [[e|rs'] w2] eqn:H2; [discriminate|].
    intros [= <- <-]. eapply IH; [|exact H2]. eapply get_team_epa_settled; eassumption.
Qed.

Lemma build_feature_vector_settled m ev (w w' : Pipeline.world) r :
  requests_settled w ->
  Pipeline.build_feature_vector net m ev w = (Returned r, w') ->
  requests_settled w'.
Proof.
  intros Hw. unfold Pipeline.build_feature_vector.
  destruct (_ || _); [now intros [= <- <-]|].
  destruct (Pipeline.fetch_all net _ _ w) as [[e|re] w1] eqn:H1; [discriminate|].
  destruct (Pipeline.fetch_all net _ _ w1) as [[e|be] w2] eqn:H2; [discriminate|].
  intros [= <- <-]. eapply fetch_all_settled; [|exact H2].
  eapply fetch_all_settled; eassumption.
Qed.

End Settled.

(** X11.  In a batch run no rating is requested twice.  If no URL has been
    requested twice so far and every requested URL has its key in the cache
    (as at the start of a run), then after the matches of an event have been
    turned into rows without an exception the same holds again; in
    particular the log of requests has no repetition. *)
Theorem no_rating_requested_twice net year ev matches rows rows' (w w' : Pipeline.world) :
  requests_settled w ->
  Collect.collect_rows net year ev matches rows w = (Returned rows', w') ->
  requests_settled w' /\ List.NoDup (Pipeline.calls w').
Proof.
  intros Hw Hrun. cut (requests_settled w'); [intros H; split; [exact H | apply H]|].
  revert rows w Hw Hrun. induction matches as [|m matches IH]; intros rows w Hw;
    cbn [Collect.collect_rows].
  - now intros [= <- <-].
  - destruct (Pipeline.build_feature_vector net m ev w) as [[e|[[|kv row]|]] w1] eqn:H1;
      [discriminate|..]; intros Hrun;
      (eapply IH; [|exact Hrun]); eapply build_feature_vector_settled; eassumption.
Qed.

(** Two matches of the same six teams: six requests, none repeated. *)
Lemma no_rating_requested_twice_witness :
  List.NoDup (Pipeline.calls
    (snd (Collect.collect_rows two_blue 2024 casj [qm_match 80 60; qm_match 55 70] []
            fresh_run))) /\
  length (Pipeline.calls
    (snd (Collect.collect_rows two_blue 2024 casj [qm_match 80 60; qm_match 55 70] []
            fresh_run))) = 6%nat.
Proof.
  split; [|vm_compute; reflexivity].
  assert (exists rows',
    fst (Collect.collect_rows two_blue 2024 casj [qm_match 80 60; qm_match 55 70] []
           fresh_run) = Returned rows') as [rows' Hrows]
    by (eexists; vm_compute; reflexivity).
  apply (no_rating_requested_twice two_blue 2024 casj [qm_match 80 60; qm_match 55 70]
           [] rows' fresh_run _ (fresh_run_settled)).
  apply pair_from_fst. exact Hrows.
Defined.

(** ** The rows of the dataset *)

Lemma dict_get_map {V W} (f : V -> W) (d : odict V) k :
  dict_get (map (fun kv => (fst kv, f (snd kv))) d) k = option_map f (dict_get d k).
Proof.
  induction d as [|[k' v] d IH]; [reflexivity|]. cbn [map fst snd dict_get].
  destruct (String.eqb k' k); [reflexivity | exact IH].
Qed.

Lemma dict_get_set {V} (d : odict V) k' v k :
  dict_get (dict_set d k' v) k = if String.eqb k' k then Some v else dict_get d k.
Proof.
  induction d as [|[k0 v0] d IH]; cbn [dict_set dict_get]; [reflexivity|].
  destruct (String.eqb_spec k0 k') as [->|Hne]; cbn [dict_get].
  - destruct (String.eqb k' k); reflexivity.
  - rewrite IH. destruct (String.eqb_spec k0 k) as [->|Hk]; [|reflexivity].
    destruct (String.eqb_spec k' k) as [->|_]; [now destruct Hne | reflexivity].
Qed.

Lemma dataset_row_columns net m ev (w : Pipeline.world) row year :
  fst (Pipeline.build_feature_vector net m ev w) = Returned (Some row) ->
  let cells :=
    dict_set (dict_set (map (fun kv => (fst kv, Collect.Num (snd kv))) row)
                "year" (Collect.Num (inject_Z year)))
      "event_key" (Collect.Text (Pipeline.key ev)) in
  dict_keys cells = DATASET_COLS /\
  dict_get cells "year" = Some (Collect.Num (inject_Z year)) /\
  dict_get cells "event_key" = Some (Collect.Text (Pipeline.key ev)) /\
  forall k q, dict_get row k = Some q -> dict_get cells k = Some (Collect.Num q).
Proof.
  intros Hrow cells.
  assert (Hlast : forall k q, dict_get row k = Some q -> dict_get cells k = Some (Collect.Num q)).
  { intros k q Hk. subst cells. rewrite !dict_get_set, dict_get_map.
    destruct (build_feature_vector_row _ _ _ _ _ Hrow) as (re & be & w1 & w2 & _ & _ & Hfr).
    destruct (feature_row_shape _ _ _ _ _ Hfr)
      as (f1 & f2 & f3 & f4 & f5 & f6 & f7 & f8 & f9 & f10 & f11 & f12 & f13 & f14
          & f15 & f16 & win & -> & _).
    destruct (String.eqb_spec "event_key" k) as [<-|_]; [discriminate Hk|].
    destruct (String.eqb_spec "year" k) as [<-|_]; [discriminate Hk|].
    now rewrite Hk. }
  split; [|split; [|split; [|exact Hlast]]]; subst cells.
  all: destruct (build_feature_vector_row _ _ _ _ _ Hrow) as (re & be & w1 & w2 & _ & _ & Hfr).
  all: destruct (feature_row_shape _ _ _ _ _ Hfr)
      as (f1 & f2 & f3 & f4 & f5 & f6 & f7 & f8 & f9 & f10 & f11 & f12 & f13 & f14
          & f15 & f16 & win & -> & _).
  all: reflexivity.
Qed.

(** X12.  The rows that the loop over the matches of an event adds to the
    dataset all have the same columns in the same order: the sixteen
    features, then winner, red_score, blue_score, score_margin, year and
    event_key; each carries the year and the event key of the loop; rows
    already collected are kept, and at most one row is added per match. *)
Theorem dataset_rows_share_columns net year ev matches rows rows' (w w' : Pipeline.world) :
  Collect.collect_rows net year ev matches rows w = (Returned rows', w') ->
  exists new,
    rows' = (rows ++ new)%list /\
    (length new <= length matches)%nat /\
    Forall (fun r =>
              dict_keys r = DATASET_COLS /\
              dict_get r "year" = Some (Collect.Num (inject_Z year)) /\
              dict_get r "event_key" = Some (Collect.Text (Pipeline.key ev))) new.
Proof.
  revert rows w. induction matches as [|m matches IH]; intros rows w;
    cbn [Collect.collect_rows].
  - intros [= <- <-]. exists []. rewrite app_nil_r. repeat split; [cbn; lia | constructor].
  - destruct (Pipeline.build_feature_vector net m ev w) as [[e|[row|]] w1] eqn:H1;
      [discriminate| |].
    + assert (Hfst : fst (Pipeline.build_feature_vector net m ev w) = Returned (Some row))
        by now rewrite H1.
      destruct (dataset_row_columns _ _ _ _ _ year Hfst) as (Hk & Hy & He & _).
      destruct row as [|kv row].
      { cbn in Hk. discriminate Hk. }
      intros Hrun. destruct (IH _ _ Hrun) as (new & -> & Hlen & Hall).
      eexists (_ :: new). split; [now rewrite <- app_assoc|].
      split; [cbn [length]; lia|]. constructor; [|exact Hall]. auto.
    + intros Hrun. destruct (IH _ _ Hrun) as (new & -> & Hlen & Hall).
      exists new. split; [reflexivity|]. split; [cbn [length]; lia | exact Hall].
Qed.

Lemma dataset_rows_share_columns_witness :
  exists r1 r2,
    fst (Collect.collect_rows two_blue 2024 casj
           [qm_match 80 60; qm_match 70 70; qm_match 55 70] [] fresh_run)
      = Returned [r1; r2] /\
    dict_keys r1 = DATASET_COLS /\ dict_keys r2 = DATASET_COLS.
Proof.
  assert (exists r1 r2,
    fst (Collect.collect_rows two_blue 2024 casj
           [qm_match 80 60; qm_match 70 70; qm_match 55 70] [] fresh_run)
      = Returned [r1; r2]) as (r1 & r2 & Hrows) by (do 2 eexists; vm_compute; reflexivity).
  exists r1, r2. split; [exact Hrows|].
  destruct (dataset_rows_share_columns two_blue 2024 casj
              [qm_match 80 60; qm_match 70 70; qm_match 55 70] [] [r1; r2] fresh_run _
              (pair_from_fst _ _ Hrows)) as (new & Hnew & _ & Hall).
  cbn [app] in Hnew. subst new.
  inversion Hall as [|? ? (H1 & _) Hall']; subst.
  inversion Hall' as [|? ? (H2 & _) _]; subst. now split.
Defined.

(** ** Events and matches of the match service *)

Section Filters.

Variable tba : string -> response.

Lemma tba_get_no_body endpoint :
  no_body (tba (Collect.TBA_BASE +:+ endpoint)) = true -> Collect.tba_get tba endpoint = PNone.
Proof.
  unfold Collect.tba_get. destruct (tba _) as [|status [body|]]; try reflexivity.
  - destruct status as [|p|p]; try reflexivity.
    do 8 (destruct p as [p|p|]; try reflexivity). discriminate.
  - intros _. destruct status as [|p|p]; try reflexivity.
    do 8 (destruct p as [p|p|]; try reflexivity).
Qed.

Lemma tba_get_body endpoint body :
  tba (Collect.TBA_BASE +:+ endpoint) = Response 200 (Some body) ->
  Collect.tba_get tba endpoint = body.
Proof. unfold Collect.tba_get. now intros ->. Qed.

(** What [py_filter] returns is the items, in order, for which the test
    answered true; it returns only if the test raised on none. *)
Lemma py_filter_spec keep items kept :
  Collect.py_filter keep items = Returned kept ->
  sublist kept items /\
  (forall x, In x items -> exists b, keep x = Returned b) /\
  (forall x, In x kept <-> In x items /\ keep x = Returned true).
Proof.
  revert kept. induction items as [|x items IH]; intros kept; cbn [Collect.py_filter].
  - intros [= <-]. split; [apply sublist_nil|]. split; [intros x []|].
    intros x. cbn [In]. tauto.
  - destruct (keep x) as [e|b] eqn:Hx; [discriminate|]. cbn [obind].
    destruct (Collect.py_filter keep items) as [e|kept'] eqn:Hrest; [discriminate|].
    cbn [obind]. intros [= <-].
    destruct (IH kept' eq_refl) as (Hsub & Htot & Hin).
    split; [|split].
    + destruct b; [now apply sublist_skip | now apply sublist_cons].
    + intros y [<-|Hy]; [now exists b | now apply Htot].
    + intros y. destruct b.
      * cbn [In]. rewrite Hin. split.
        -- intros [<-|[Hy Hk]]; [split; [now left | exact Hx] | split; [now right | exact Hk]].
        -- intros [[<-|Hy] Hk]; [now left | right; now split].
      * rewrite Hin. cbn [In]. split.
        -- intros [Hy Hk]. split; [now right | exact Hk].
        -- intros [[<-|Hy] Hk]; [congruence | now split].
Qed.

End Filters.

(** X13.  [fetch_matches_for_event].  When the match service fails, answers
    with a status other than 200 or sends no JSON, the result is the empty
    list and nothing is raised.  When it answers 200 with a JSON list and the
    function returns, the result is a sub-list of that list in the same
    order, made of exactly the matches for which the completed test holds;
    for a match whose two alliances carry integer scores that test is: both
    scores are at least 0 (an unplayed match, scored -1, is dropped), and a
    match without an alliances entry is dropped as well. *)
Theorem fetch_matches_keeps_completed tba event_key :
  (no_body (tba (Collect.TBA_BASE +:+ "/event/" +:+ event_key +:+ "/matches")) = true ->
   Collect.fetch_matches_for_event tba event_key = Returned []) /\
  (forall items kept,
     tba (Collect.TBA_BASE +:+ "/event/" +:+ event_key +:+ "/matches")
       = Response 200 (Some (PList items)) ->
     Collect.fetch_matches_for_event tba event_key = Returned kept ->
     sublist kept items /\
     forall m, In m kept <-> In m items /\ Collect.is_completed m = Returned true) /\
  (forall m a r b rs bs,
     dict_get m "alliances" = Some (PDict a) ->
     dict_get a "red" = Some (PDict r) -> dict_get r "score" = Some (PInt rs) ->
     dict_get a "blue" = Some (PDict b) -> dict_get b "score" = Some (PInt bs) ->
     Collect.is_completed (PDict m) = Returned ((0 <=? rs)%Z && (0 <=? bs)%Z)) /\
  (forall m, dict_get m "alliances" = None ->
     Collect.is_completed (PDict m) = Returned false).
Proof.
  split; [|split; [|split]].
  - intros Hfail. unfold Collect.fetch_matches_for_event.
    now rewrite (tba_get_no_body _ _ Hfail).
  - intros items kept Hnet. unfold Collect.fetch_matches_for_event.
    rewrite (tba_get_body _ _ _ Hnet).
    destruct items as [|x items].
    + cbn [truthy]. intros [= <-]. split; [apply sublist_nil|]. intros m. cbn. tauto.
    + cbn [truthy Collect.py_iter obind]. intros Hf.
      destruct (py_filter_spec _ _ _ Hf) as (Hsub & _ & Hin). now split.
  - intros m a r b rs bs Ha Hr Hrs Hb Hbs.
    unfold Collect.is_completed, Collect.has_score. cbn [py_attr_get obind].
    unfold py_get_default. rewrite Ha. cbn [py_attr_get obind].
    unfold py_get_default. rewrite Hr, Hb. cbn [py_attr_get obind].
    unfold py_get_default. rewrite Hrs, Hbs.
    unfold Collect.py_ge_zero. cbn [is_number number_of obind].
    assert (Hle : forall z, Qle_bool 0 (inject_Z z) = (0 <=? z)%Z).
    { intros z. unfold Qle_bool, inject_Z. cbn [Qnum Qden]. now rewrite !Z.mul_1_r. }
    rewrite !Hle. destruct (0 <=? rs)%Z; reflexivity.
  - intros m Ha. unfold Collect.is_completed, Collect.has_score. cbn [py_attr_get obind].
    unfold py_get_default. rewrite Ha. reflexivity.
Qed.

Lemma fetch_matches_keeps_completed_witness :
  Collect.fetch_matches_for_event demo_tba "2024casj" = Returned [json_match 80 60] /\
  Collect.fetch_matches_for_event demo_tba "2024nope" = Returned [].
Proof.
  destruct (fetch_matches_keeps_completed demo_tba "2024nope") as (Hfail & _).
  split; [|apply Hfail; vm_compute; reflexivity].
  destruct (fetch_matches_keeps_completed demo_tba "2024casj") as (_ & Hkept & Hscore & _).
  assert (Hrun : exists kept,
    Collect.fetch_matches_for_event demo_tba "2024casj" = Returned kept)
    by (eexists; vm_compute; reflexivity).
  destruct Hrun as [kept Hrun]. rewrite Hrun. f_equal.
  destruct (Hkept _ kept eq_refl Hrun) as [_ Hin].
  vm_compute in Hrun. now injection Hrun as <-.
Defined.

(** X14.  [fetch_events_for_year].  When the match service fails, answers
    with a status other than 200 or sends no JSON, the result is the empty
    list and nothing is raised.  When it answers 200 with a JSON list and the
    function returns, the result is a sub-list of that list in the same
    order, made of exactly the events that pass the official test; for an
    event record with an integer [event_type] that test is: the type lies
    between 0 and 6; a record without [event_type] does not pass. *)
Theorem fetch_events_keeps_official tba (year : Z) :
  (no_body (tba (Collect.TBA_BASE +:+ "/events/" +:+ pretty year)) = true ->
   Collect.fetch_events_for_year tba year = Returned []) /\
  (forall items kept,
     tba (Collect.TBA_BASE +:+ "/events/" +:+ pretty year)
       = Response 200 (Some (PList items)) ->
     Collect.fetch_events_for_year tba year = Returned kept ->
     sublist kept items /\
     forall e, In e kept <-> In e items /\ Collect.is_official e = Returned true) /\
  (forall e t, dict_get e "event_type" = Some (PInt t) ->
     Collect.is_official (PDict e) = Returned ((0 <=? t)%Z && (t <=? 6)%Z)) /\
  (forall e, dict_get e "event_type" = None ->
     Collect.is_official (PDict e) = Returned false).
Proof.
  split; [|split; [|split]].
  - intros Hfail. unfold Collect.fetch_events_for_year.
    now rewrite (tba_get_no_body _ _ Hfail).
  - intros items kept Hnet. unfold Collect.fetch_events_for_year.
    rewrite (tba_get_body _ _ _ Hnet).
    destruct items as [|x items].
    + cbn [truthy]. intros [= <-]. split; [apply sublist_nil|]. intros m. cbn. tauto.
    + cbn [truthy Collect.py_iter obind]. intros Hf.
      destruct (py_filter_spec _ _ _ Hf) as (Hsub & _ & Hin). now split.
  - intros e t Ht. unfold Collect.is_official. cbn [py_attr_get obind].
    unfold py_get_default. rewrite Ht. f_equal.
    unfold Collect.py_eq_int. cbn [existsb is_number number_of andb].
    assert (Heq : forall n, Qeq_bool (inject_Z t) (inject_Z n) = (t =? n)%Z).
    { intros n. unfold Qeq_bool, inject_Z. cbn [Qnum Qden]. now rewrite !Z.mul_1_r. }
    rewrite !Heq.
    destruct (Z.leb_spec 0 t), (Z.leb_spec t 6); cbn [andb];
      repeat match goal with
             | |- context [(t =? ?n)%Z] => destruct (Z.eqb_spec t n); try lia
             end; reflexivity.
  - intros e Ht. unfold Collect.is_official. cbn [py_attr_get obind].
    unfold py_get_default. rewrite Ht. reflexivity.
Qed.

Lemma fetch_events_keeps_official_witness :
  Collect.fetch_events_for_year demo_tba 2024
    = Returned [json_event "2024casj" (PInt 0); json_event "2024cmp" (PInt 3)] /\
  Collect.fetch_events_for_year demo_tba 2023 = Returned [].
Proof.
  destruct (fetch_events_keeps_official demo_tba 2023) as (Hfail & _).
  split; [|apply Hfail; vm_compute; reflexivity].
  destruct (fetch_events_keeps_official demo_tba 2024) as (_ & Hkept & _).
  assert (Hrun : exists kept,
    Collect.fetch_events_for_year demo_tba 2024 = Returned kept)
    by (eexists; vm_compute; reflexivity).
  destruct Hrun as [kept Hrun]. rewrite Hrun. f_equal.
  destruct (Hkept _ kept eq_refl Hrun) as [_ Hin].
  vm_compute in Hrun. now injection Hrun as <-.
Defined.

(** ** The years of a run *)

Section Years.

Lemma insert_sorted_in a l x : In x (Collect.insert_sorted a l) <-> x = a \/ In x l.
Proof.
  induction l as [|y rest IH]; cbn [Collect.insert_sorted In].
  - intuition.
  - destruct (Z.ltb_spec a y); [cbn [In]; intuition|].
    destruct (Z.eqb_spec a y) as [->|Hne]; [cbn [In]; intuition|].
    cbn [In]. rewrite IH. intuition.
Qed.

Lemma insert_sorted_increasing a l : increasing l -> increasing (Collect.insert_sorted a l).
Proof.
  induction l as [|y rest IH]; cbn [Collect.insert_sorted increasing].
  - intros _. split; [intros z [] | exact I].
  - intros [Hy Hrest].
    destruct (Z.ltb_spec a y) as [Hlt|Hge].
    + cbn [increasing]. split; [|now split].
      intros z [<-|Hz]; [exact Hlt | specialize (Hy z Hz); lia].
    + destruct (Z.eqb_spec a y) as [->|Hne]; [cbn [increasing]; now split|].
      cbn [increasing]. split; [|now apply IH].
      intros z Hz. apply insert_sorted_in in Hz as [->|Hz]; [lia | now apply Hy].
Qed.

Lemma sorted_set_spec l :
  increasing (Collect.sorted_set l) /\ forall x, In x (Collect.sorted_set l) <-> In x l.
Proof.
  induction l as [|a l [IH1 IH2]]; cbn [Collect.sorted_set fold_right].
  - split; [exact I | intros x; reflexivity].
  - split; [now apply insert_sorted_increasing|].
    intros x. fold (Collect.sorted_set l). rewrite insert_sorted_in, IH2. cbn [In]. intuition.
Qed.

(** What the loop over the pieces collects: the numbers of the pieces that
    are not blank, in order, unless one of them is no number. *)
Lemma read_years_spec pieces acc :
  (Forall piece_ok pieces ->
   exists years, Collect.read_years pieces acc = Some (acc ++ years)%list /\
     forall y, In y years <->
       exists raw, In raw pieces /\ Pipeline.py_int (Collect.str_strip raw) = Some y /\
                   Collect.str_strip raw <> "") /\
  (~ Forall piece_ok pieces -> Collect.read_years pieces acc = None).
Proof.
  revert acc. induction pieces as [|raw pieces IH]; intros acc.
  - split.
    + intros _. exists []. rewrite app_nil_r. split; [reflexivity|].
      intros y. split; [intros [] | intros (raw & [] & _)].
    + intros H. destruct H. constructor.
  - cbn [Collect.read_years].
    destruct (String.eqb_spec (Collect.str_strip raw) "") as [Hblank|Hnb].
    + destruct (IH acc) as [IHok IHbad]. split.
      * intros H. inversion H as [|? ? _ Hrest]; subst.
        destruct (IHok Hrest) as (years & -> & Hin). exists years. split; [reflexivity|].
        intros y. rewrite Hin. split.
        -- intros (r & Hr & Hy). exists r. split; [now right | exact Hy].
        -- intros (r & [<-|Hr] & Hy & Hne); [contradiction|]. exists r. now split.
      * intros H. apply IHbad. intros Hrest. apply H. constructor; [now left | exact Hrest].
    + destruct (Pipeline.py_int (Collect.str_strip raw)) as [y0|] eqn:Hint.
      * destruct (IH (acc ++ [y0])%list) as [IHok IHbad]. split.
        -- intros H. inversion H as [|? ? _ Hrest]; subst.
           destruct (IHok Hrest) as (years & -> & Hin). exists (y0 :: years).
           split; [now rewrite <- app_assoc|].
           intros y. cbn [In]. rewrite Hin. split.
           ++ intros [<-|(r & Hr & Hy)].
              ** exists raw. split; [now left | now split].
              ** exists r. split; [now right | exact Hy].
           ++ intros (r & [<-|Hr] & Hy & Hne).
              ** left. congruence.
              ** right. exists r. now split.
        -- intros H. apply IHbad. intros Hrest. apply H.
           constructor; [right; congruence | exact Hrest].
      * split; [|reflexivity].
        intros H. inversion H as [|? ? [Hb|Hn] _]; subst; contradiction.
Qed.

Lemma read_years_some pieces acc years :
  Collect.read_years pieces acc = Some years -> Forall piece_ok pieces.
Proof.
  revert acc. induction pieces as [|raw pieces IH]; intros acc; [constructor|].
  cbn [Collect.read_years].
  destruct (String.eqb_spec (Collect.str_strip raw) "") as [Hblank|Hnb].
  - intros H. constructor; [now left | exact (IH _ H)].
  - destruct (Pipeline.py_int (Collect.str_strip raw)) as [y0|] eqn:Hint; [|discriminate].
    intros H. constructor; [right; congruence | exact (IH _ H)].
Qed.

End Years.

(** X15.  [parse_years].  With [SCOUTAI_YEARS] unset or empty the years are
    the three before the current one.  Otherwise the text is cut at commas:
    if one piece is neither blank nor a number, or if all pieces are blank,
    the function exits with code 1; else it returns the numbers of the
    pieces, each once, in strictly increasing order, and never an empty
    list. *)
Theorem parse_years_result (env : option string) (current_year : Z) :
  ((env = None \/ env = Some "") ->
   Collect.parse_years env current_year
     = Collect.Done [current_year - 3; current_year - 2; current_year - 1]%Z) /\
  (forall text, env = Some text -> text <> "" ->
     (~ Forall piece_ok (Collect.split_comma text) ->
      Collect.parse_years env current_year = Collect.Exit 1) /\
     (Forall (fun raw => Collect.str_strip raw = "") (Collect.split_comma text) ->
      Collect.parse_years env current_year = Collect.Exit 1) /\
     (forall years, Collect.parse_years env current_year = Collect.Done years ->
        years <> [] /\ increasing years /\
        forall y, In y years <->
          exists raw, In raw (Collect.split_comma text) /\
                      Pipeline.py_int (Collect.str_strip raw) = Some y /\
                      Collect.str_strip raw <> "")).
Proof.
  split.
  - intros [->| ->]; reflexivity.
  - intros text -> Hne. unfold Collect.parse_years.
    destruct (String.eqb_spec text "") as [->|_]; [now destruct Hne|].
    destruct (read_years_spec (Collect.split_comma text) []) as [Hok Hbad].
    split; [|split].
    + intros H. now rewrite (Hbad H).
    + intros Hblank.
      assert (Hpieces : Forall piece_ok (Collect.split_comma text)).
      { eapply Forall_impl; [exact Hblank|]. intros raw Hr. now left. }
      destruct (Hok Hpieces) as (years & -> & Hin). cbn [app].
      destruct years as [|y years]; [reflexivity|]. exfalso.
      destruct (proj1 (Hin y) ltac:(now left)) as (raw & Hraw & _ & Hnb).
      rewrite Forall_forall in Hblank. apply Hnb, Hblank. now apply list_elem_of_In.
    + intros years.
      destruct (Collect.read_years (Collect.split_comma text) []) as [[|y0 ys]|] eqn:Hread;
        try discriminate.
      intros [= <-].
      pose proof (read_years_some _ _ _ Hread) as Hpieces.
      destruct (Hok Hpieces) as (years & Hyears & Hin).
      cbn [app] in Hyears. injection Hyears as <-.
      destruct (sorted_set_spec (y0 :: ys)) as [Hinc Hmem].
      split; [|split; [exact Hinc|]].
      * pose proof (proj2 (Hmem y0) (or_introl eq_refl)) as Hy0.
        intros Hnil.
        change (In y0 (Collect.insert_sorted y0 (Collect.sorted_set ys))) in Hy0.
        rewrite Hnil in Hy0. destruct Hy0.
      * intros y. rewrite Hmem. apply Hin.
Qed.

Lemma parse_years_result_witness :
  Collect.parse_years (Some "2023, 2021,2023 ,") 2026 = Collect.Done [2021; 2023]%Z /\
  Collect.parse_years (Some "2023,20x4") 2026 = Collect.Exit 1 /\
  Collect.parse_years (Some " , ") 2026 = Collect.Exit 1 /\
  Collect.parse_years None 2026 = Collect.Done [2023; 2024; 2025]%Z.
Proof.
  split; [|split; [|split]].
  - destruct (parse_years_result (Some "2023, 2021,2023 ,") 2026) as [_ Htext].
    destruct (Htext "2023, 2021,2023 ," eq_refl ltac:(discriminate)) as (_ & _ & Hdone).
    assert (exists years,
      Collect.parse_years (Some "2023, 2021,2023 ,") 2026 = Collect.Done years)
      as [years Hy] by (eexists; vm_compute; reflexivity).
    destruct (Hdone years Hy) as (_ & _ & _). rewrite Hy.
    vm_compute in Hy. now injection Hy as <-.
  - destruct (parse_years_result (Some "2023,20x4") 2026) as [_ Htext].
    destruct (Htext "2023,20x4" eq_refl ltac:(discriminate)) as (Hbad & _ & _).
    apply Hbad. intros H. inversion H as [|? ? _ H1]; subst.
    inversion H1 as [|? ? [Hb|Hn] _]; subst; [discriminate Hb|].
    apply Hn. vm_compute. reflexivity.
  - destruct (parse_years_result (Some " , ") 2026) as [_ Htext].
    destruct (Htext " , " eq_refl ltac:(discriminate)) as (_ & Hblank & _).
    apply Hblank. repeat constructor.
  - apply (proj1 (parse_years_result None 2026)). now left.
Defined.

(** ** Years written as decimal text *)

Section YearsRoundTrip.

Lemma pretty_Z_chars (z : Z) :
  pretty z <> "" /\
  Forall (fun c => Pipeline.digit_of c <> None \/ c = "-"%char)
         (list_ascii_of_string (pretty z)).
Proof.
  destruct (pretty_Z_shape z) as (d & Hd & Hne & _ & [[_ ->]|[_ ->]]).
  - split; [exact Hne|]. eapply Forall_impl; [exact Hd|]. intros c Hc. now left.
  - split; [discriminate|]. cbn [list_ascii_of_string].
    constructor; [now right|]. eapply Forall_impl; [exact Hd|]. intros c Hc. now left.
Qed.

Lemma pretty_Z_no_comma (z : Z) :
  Forall (fun c => Ascii.eqb c ","%char = false) (list_ascii_of_string (pretty z)).
Proof.
  eapply Forall_impl; [apply pretty_Z_chars|]. intros c [Hc| ->]; [|reflexivity].
  destruct (Ascii.eqb_spec c ","%char) as [->|_]; [|reflexivity]. now destruct Hc.
Qed.

Lemma split_comma_piece s :
  Forall (fun c => Ascii.eqb c ","%char = false) (list_ascii_of_string s) ->
  Collect.split_comma s = [s] /\
  forall t, Collect.split_comma (s +:+ String ","%char t) = s :: Collect.split_comma t.
Proof.
  induction s as [|c s IH]; cbn [list_ascii_of_string]; intros H.
  - split; [reflexivity|]. intros t. reflexivity.
  - inversion H as [|? ? Hc Hs]; subst. destruct (IH Hs) as [IH1 IH2]. split.
    + cbn [Collect.split_comma]. now rewrite Hc, IH1.
    + intros t. rewrite append_cons. cbn [Collect.split_comma]. now rewrite Hc, IH2.
Qed.

Lemma split_comma_join pieces :
  pieces <> [] ->
  Forall (fun s => Forall (fun c => Ascii.eqb c ","%char = false) (list_ascii_of_string s))
         pieces ->
  Collect.split_comma (comma_join pieces) = pieces.
Proof.
  induction pieces as [|s pieces IH]; [now intros H|]. intros _ H.
  inversion H as [|? ? Hs Hrest]; subst.
  destruct pieces as [|s' pieces].
  - cbn [comma_join]. apply split_comma_piece, Hs.
  - change (comma_join (s :: s' :: pieces))
      with (s +:+ String ","%char (comma_join (s' :: pieces))).
    rewrite (proj2 (split_comma_piece s Hs)). f_equal. apply IH; [discriminate | exact Hrest].
Qed.

Lemma str_strip_pretty (z : Z) : Collect.str_strip (pretty z) = pretty z.
Proof.
  unfold Collect.str_strip. rewrite strip_id; [apply string_of_list_ascii_of_string|].
  eapply Forall_impl; [apply pretty_Z_chars|].
  intros c [Hc| ->]; [now apply digit_not_space | reflexivity].
Qed.

Lemma read_years_pretty (zs acc : list Z) :
  Forall int_readable zs ->
  Collect.read_years (map pretty zs) acc = Some (acc ++ zs)%list.
Proof.
  intros Hzs. revert acc.
  induction Hzs as [|z zs Hz _ IH]; intros acc; cbn [map Collect.read_years].
  - now rewrite app_nil_r.
  - rewrite str_strip_pretty.
    destruct (String.eqb_spec (pretty z) "") as [He|_];
      [now destruct (proj1 (pretty_Z_chars z))|].
    rewrite (py_int_pretty z Hz), IH. now rewrite <- app_assoc.
Qed.

End YearsRoundTrip.

(** X16.  Years written in decimal and joined by commas are read back: for
    a non-empty list of integers of at most 4300 digits each, [parse_years]
    on that text returns the same integers, each once, in strictly increasing
    order. *)
Theorem parse_years_round_trip (zs : list Z) (current_year : Z) :
  zs <> [] ->
  Forall int_readable zs ->
  exists years,
    Collect.parse_years (Some (comma_join (map pretty zs))) current_year
      = Collect.Done years /\
    increasing years /\ forall y, In y years <-> In y zs.
Proof.
  intros Hne Hzs. exists (Collect.sorted_set zs).
  destruct (sorted_set_spec zs) as [Hinc Hmem]. split; [|now split].
  unfold Collect.parse_years.
  assert (Htext : comma_join (map pretty zs) <> "").
  { destruct zs as [|z zs]; [now destruct Hne|].
    pose proof (proj1 (pretty_Z_chars z)) as Hz.
    destruct zs as [|z' zs]; cbn [map comma_join]; [exact Hz|].
    destruct (pretty z); [now destruct Hz | rewrite append_cons; discriminate]. }
  destruct (String.eqb_spec (comma_join (map pretty zs)) "") as [He|_]; [contradiction|].
  rewrite split_comma_join.
  - rewrite (read_years_pretty _ _ Hzs). cbn [app].
    destruct zs; [now destruct Hne | reflexivity].
  - destruct zs; [now destruct Hne | discriminate].
  - apply Forall_forall. intros s Hs. apply list_elem_of_In, in_map_iff in Hs as (z & <- & _).
    apply pretty_Z_no_comma.
Qed.

Lemma parse_years_round_trip_witness :
  exists years,
    Collect.parse_years (Some (comma_join (map pretty [2024; 2022; 2024]%Z))) 2026
      = Collect.Done years /\
    forall y, In y years <-> In y [2024; 2022; 2024]%Z.
Proof.
  destruct (parse_years_round_trip [2024; 2022; 2024]%Z 2026 ltac:(discriminate)
              ltac:(repeat constructor; vm_compute; reflexivity))
    as (years & Hy & _ & Hmem).
  exists years. now split.
Defined.

(** ** The persisted column list is taken on trust *)





(** ** Lookups leave other entries alone *)

(** X18.  A lookup touches no cache entry but its own: in both clients, the
    entry of every other (team, event) pair is after the lookup what it was
    before, whether the lookup hit the cache, fetched, or raised. *)
Theorem lookup_leaves_other_entries (team team' : Z) (ev ev' : string) :
  (team, ev) <> (team', ev') ->
  (forall net (w : Pipeline.world),
     Pipeline.epa_cache (snd (Pipeline.get_team_epa net team ev w)) !! cache_key team' ev'
     = Pipeline.epa_cache w !! cache_key team' ev') /\
  (forall net clock (w : Server.world),
     Server._epa_cache (snd (Server.get_team_epa_cached net clock team ev w))
       !! cache_key team' ev'
     = Server._epa_cache w !! cache_key team' ev').
Proof.
  intros Hne.
  assert (Hk : cache_key team ev <> cache_key team' ev').
  { intros H. apply cache_key_inj in H as [-> ->]. now apply Hne. }
  split.
  - intros net w. unfold Pipeline.get_team_epa.
    destruct (Pipeline.epa_cache w !! cache_key team ev); [reflexivity|].
    destruct (Pipeline.rating_of_payload _); cbn [snd Pipeline.epa_cache]; [reflexivity|].
    now rewrite lookup_insert_ne.
  - intros net clock w. unfold Server.get_team_epa_cached.
    cbn [Server._epa_cache Server.calls Server.ticks].
    destruct (Server._epa_cache w !! cache_key team ev) as [[data ts]|].
    + destruct (Qlt_le_dec _ _); [reflexivity|].
      destruct (Server.try_fetch _); cbn [snd Server._epa_cache]; [reflexivity|].
      now rewrite lookup_insert_ne.
    + destruct (Server.try_fetch _); cbn [snd Server._epa_cache]; [reflexivity|].
      now rewrite lookup_insert_ne.
Qed.

Lemma lookup_leaves_other_entries_witness :
  Pipeline.epa_cache
    (snd (Pipeline.get_team_epa lone_red 1 "2024casj"
            (snd (Pipeline.get_team_epa lone_red 2 "2024casj" fresh_run))))
    !! cache_key 2 "2024casj" = Some None.
Proof.
  rewrite (proj1 (lookup_leaves_other_entries 1 2 "2024casj" "2024casj" ltac:(discriminate))).
  vm_compute. reflexivity.
Defined.
